(** * TA_Automation: the session / batch / slot synchronisation job

    A shallow embedding of [TA_Automation.py].  The script pulls three
    tabular datasets, joins them with pandas and writes three worksheets.

    Tables are modelled at the level of values.  A frame is a list of
    column labels together with rows that bind labels to cells, and the
    pandas operations the script calls ([pd.DataFrame], [rename],
    [merge], [to_datetime], [groupby.transform], [dt.strftime],
    [drop_duplicates]) are written out as list functions with their
    documented behaviour on null cells and on label clashes.  Column
    dtypes are not modelled, nor is the row order of an outer merge.  The
    scalar timestamp parser of pandas is a parameter of the pipeline;
    [iso_parse] is an instance of it for running examples.

    Network and spreadsheet calls are answered by an explicit [World], and
    the script's control flow becomes a computation that leaves a trace of
    events and ends in a value or in an exception. *)

From Stdlib Require Import List String Ascii ZArith Lia Bool Arith PeanoNat.
Import ListNotations.
Open Scope string_scope.
Open Scope list_scope.

Set Implicit Arguments.

(* ================================================================== *)
(** * Cells *)

(** A pandas [Timestamp], broken down into calendar fields. *)
Record Timestamp := mkTs
  { year : Z; month : Z; day : Z; hour : Z; minute : Z; second : Z }.

(** The cells that occur in the script's frames.  [VNull] stands for the
    missing value in all its spellings ([None], [NaN], [NaT]). *)
Inductive value :=
| VNull
| VInt (z : Z)
| VStr (s : string)
| VTime (t : Timestamp).

Definition Timestamp_eq_dec (a b : Timestamp) : {a = b} + {a <> b}.
Proof. decide equality; apply Z.eq_dec. Defined.

Definition value_eq_dec (a b : value) : {a = b} + {a <> b}.
Proof.
  decide equality;
    [apply Z.eq_dec | apply string_dec | apply Timestamp_eq_dec].
Defined.

Definition value_eqb (a b : value) : bool :=
  if value_eq_dec a b then true else false.

Definition is_null (v : value) : bool :=
  match v with VNull => true | _ => false end.

Definition mem (c : string) (cs : list string) : bool :=
  if in_dec string_dec c cs then true else false.

(* ================================================================== *)
(** * Exceptions and results *)

Inductive exn :=
| KeyError (labels : list string)
| ValueError (msg : string) (labels : list string)
| MergeError (labels : list string)
| ParserError (v : value)
| AttributeError (msg : string)
| MissingSchema
| HTTPError (code : nat)
| APIError (what : string).

Inductive result (A : Type) :=
| Ok (a : A)
| Raise (e : exn).
Arguments Ok {A} a.
Arguments Raise {A} e.

Definition rbind {A B} (m : result A) (k : A -> result B) : result B :=
  match m with Ok a => k a | Raise e => Raise e end.

Declare Scope result_scope.
Delimit Scope result_scope with result.
Notation "x <- m ;; k" := (rbind m (fun x => k))
  (at level 61, m at next level, right associativity) : result_scope.
Open Scope result_scope.

Fixpoint mapM {A B} (f : A -> result B) (l : list A) : result (list B) :=
  match l with
  | [] => Ok []
  | a :: l' => b <- f a ;; bs <- mapM f l' ;; Ok (b :: bs)
  end.

(* ================================================================== *)
(** * Frames *)

(** A row binds column labels to cells; a JSON record has the same shape. *)
Definition Row := list (string * value).

Record DataFrame := mkDF { columns : list string; rows : list Row }.

Fixpoint lookup (c : string) (r : Row) : option value :=
  match r with
  | [] => None
  | (c', v) :: r' => if string_dec c c' then Some v else lookup c r'
  end.

(** The cell of a row under a label; a label the row does not bind reads
    as null, as a key missing from a record does in [pd.DataFrame]. *)
Definition cell (r : Row) (c : string) : value :=
  match lookup c r with Some v => v | None => VNull end.

Fixpoint set_cell (c : string) (v : value) (r : Row) : Row :=
  match r with
  | [] => [(c, v)]
  | (c', v') :: r' =>
      if string_dec c c' then (c', v) :: r' else (c', v') :: set_cell c v r'
  end.

Definition Row_eq_dec (a b : Row) : {a = b} + {a <> b}.
Proof.
  apply list_eq_dec. intros [c v] [c' v'].
  destruct (string_dec c c'); [ | right; congruence ].
  destruct (value_eq_dec v v'); [ left | right ]; congruence.
Defined.

(** Labels in order of first appearance. *)
Fixpoint distinct (seen cs : list string) : list string :=
  match cs with
  | [] => []
  | c :: cs' =>
      if mem c seen then distinct seen cs' else c :: distinct (c :: seen) cs'
  end.

Definition has_dup (cs : list string) : bool :=
  negb (Nat.eqb (List.length (distinct [] cs)) (List.length cs)).

Definition project (cs : list string) (r : Row) : Row :=
  map (fun c => (c, cell r c)) cs.

(** [pd.DataFrame(records)]: the columns are the keys of the records in
    order of first appearance, and a record lacking a key gets a null. *)
Definition DataFrame_of_records (recs : list Row) : DataFrame :=
  let cols := distinct [] (flat_map (map fst) recs) in
  mkDF cols (map (project cols) recs).

(** [df[[c1, ..., cn]]]: raises [KeyError] on the labels that are absent. *)
Definition getitem_cols (cs : list string) (df : DataFrame) : result DataFrame :=
  match filter (fun c => negb (mem c (columns df))) cs with
  | [] => Ok (mkDF cs (map (project cs) (rows df)))
  | missing => Raise (KeyError missing)
  end.

(** [df[c]] read as a series. *)
Definition getitem (c : string) (df : DataFrame) : result (list value) :=
  if mem c (columns df) then Ok (map (fun r => cell r c) (rows df))
  else Raise (KeyError [c]).

(** [df[c] = series]: overwrite the column, or append it when new. *)
Definition setitem (c : string) (vals : list value) (df : DataFrame) : DataFrame :=
  mkDF (if mem c (columns df) then columns df else columns df ++ [c])
       (map (fun rv => set_cell c (snd rv) (fst rv)) (combine (rows df) vals)).

Fixpoint rename_label (m : list (string * string)) (c : string) : string :=
  match m with
  | [] => c
  | (old, new) :: m' => if string_dec c old then new else rename_label m' c
  end.

Definition relabel (f : string -> string) (r : Row) : Row :=
  map (fun cv => (f (fst cv), snd cv)) r.

(** [df.rename(columns=m)]. *)
Definition rename (m : list (string * string)) (df : DataFrame) : DataFrame :=
  mkDF (map (rename_label m) (columns df))
       (map (relabel (rename_label m)) (rows df)).

(** [df.drop_duplicates()]: keep the first of every run of equal rows;
    nulls compare equal here. *)
Fixpoint drop_dups (seen : list Row) (rs : list Row) : list Row :=
  match rs with
  | [] => []
  | r :: rs' =>
      if in_dec Row_eq_dec r seen then drop_dups seen rs'
      else r :: drop_dups (r :: seen) rs'
  end.

Definition drop_duplicates (df : DataFrame) : DataFrame :=
  mkDF (columns df) (drop_dups [] (rows df)).

(* ================================================================== *)
(** * [pd.merge]

    [pd.merge(L, R, on=keys, how=...)] with the default suffixes.  The key
    columns of the right frame are dropped; a non-key label carried by both
    frames becomes [label_x] on the left and [label_y] on the right.  Key
    cells are compared as values and, as pandas documents, a null key
    matches a null key.  The row order of an outer merge (pandas sorts it
    by key) is not modelled: matched and left-only rows come in left
    order, right-only rows after them. *)

Inductive how := Inner | Outer.

Definition keys_match (on : list string) (l r : Row) : bool :=
  forallb (fun k => value_eqb (cell l k) (cell r k)) on.

Definition llabel (on rcols : list string) (c : string) : string :=
  if mem c on then c else if mem c rcols then String.append c "_x" else c.

Definition rlabel (on lcols : list string) (c : string) : string :=
  if mem c on then c else if mem c lcols then String.append c "_y" else c.

Definition nonkey (on : list string) (c : string) : bool := negb (mem c on).

Definition right_part (on lcols : list string) (r : Row) : Row :=
  relabel (rlabel on lcols) (filter (fun cv => nonkey on (fst cv)) r).

(** A left row joined with a right row that matches it. *)
Definition join_row (on lcols rcols : list string) (l r : Row) : Row :=
  relabel (llabel on rcols) l ++ right_part on lcols r.

(** A left row without a match: the right frame's columns are null. *)
Definition left_only (on lcols rcols : list string) (l : Row) : Row :=
  relabel (llabel on rcols) l
  ++ map (fun c => (rlabel on lcols c, VNull)) (filter (nonkey on) rcols).

(** A right row without a match: the key columns take its key, the other
    columns of the left frame are null. *)
Definition right_only (on lcols rcols : list string) (r : Row) : Row :=
  map (fun c => (llabel on rcols c, if mem c on then cell r c else VNull)) lcols
  ++ right_part on lcols r.

Definition inner_rows (on : list string) (L R : DataFrame) : list Row :=
  flat_map (fun l =>
              map (join_row on (columns L) (columns R) l)
                  (filter (keys_match on l) (rows R)))
           (rows L).

Definition outer_rows (on : list string) (L R : DataFrame) : list Row :=
  flat_map (fun l =>
              match filter (keys_match on l) (rows R) with
              | [] => [left_only on (columns L) (columns R) l]
              | ms => map (join_row on (columns L) (columns R) l) ms
              end)
           (rows L)
  ++ map (right_only on (columns L) (columns R))
         (filter (fun r => negb (existsb (fun l => keys_match on l r) (rows L)))
                 (rows R)).

Definition repeated (k : string) (cs : list string) : bool :=
  Nat.ltb 1 (count_occ string_dec cs k).

Definition merge (h : how) (on : list string) (L R : DataFrame) : result DataFrame :=
  match filter (fun k => negb (mem k (columns L) && mem k (columns R))) on with
  | k :: ks => Raise (KeyError (k :: ks))
  | [] =>
      match filter (fun k => repeated k (columns L) || repeated k (columns R)) on with
      | k :: ks => Raise (ValueError "The column label is not unique" (k :: ks))
      | [] =>
          let ll := map (llabel on (columns R)) (columns L) in
          let rl := map (rlabel on (columns L)) (filter (nonkey on) (columns R)) in
          if (has_dup ll && negb (has_dup (columns L)))
             || (has_dup rl && negb (has_dup (columns R)))
          then Raise (MergeError (ll ++ rl))
          else Ok (mkDF (ll ++ rl)
                        match h with
                        | Inner => inner_rows on L R
                        | Outer => outer_rows on L R
                        end)
      end
  end.

(* ================================================================== *)
(** * Timestamps *)

(** [pd.to_datetime] on one cell, given the scalar parser [parse] that
    pandas applies to a non-null cell.  A null stays null whatever the
    [errors] mode; [None] is "cannot be parsed". *)
Definition to_datetime_cell (parse : value -> option Timestamp) (v : value)
  : option value :=
  match v with
  | VNull => Some VNull
  | VTime t => Some (VTime t)
  | _ => option_map VTime (parse v)
  end.

(** [pd.to_datetime(series, errors='coerce')]. *)
Definition to_datetime_coerce (parse : value -> option Timestamp)
  (vs : list value) : list value :=
  map (fun v => match to_datetime_cell parse v with
                | Some x => x
                | None => VNull
                end) vs.

(** [pd.to_datetime(series)], with the default [errors='raise']. *)
Definition to_datetime (parse : value -> option Timestamp)
  (vs : list value) : result (list value) :=
  mapM (fun v => match to_datetime_cell parse v with
                 | Some x => Ok x
                 | None => Raise (ParserError v)
                 end) vs.

(** The [.dt] accessor: the series must be datetime-like. *)
Definition dt (vs : list value) : result (list (option Timestamp)) :=
  mapM (fun v => match v with
                 | VTime t => Ok (Some t)
                 | VNull => Ok None
                 | _ => Raise (AttributeError
                          "Can only use .dt accessor with datetimelike values")
                 end) vs.

Definition iNaT : Z := - 2 ^ 63.

(** Two's-complement wrap-around of 64-bit integer arithmetic. *)
Definition wrap64 (z : Z) : Z := (z + 2 ^ 63) mod 2 ^ 64 - 2 ^ 63.

(** [.dt.to_period('M').astype(int)]: the month ordinal counted from
    1970-01; the integer view of a missing period is [iNaT]. *)
Definition period_M_ordinal (t : option Timestamp) : Z :=
  match t with
  | Some t => (year t - 1970) * 12 + (month t - 1)
  | None => iNaT
  end.

Definition int64_sub (a b : list Z) : list value :=
  map (fun ab => VInt (wrap64 (fst ab - snd ab))) (combine a b).



Definition digit (n : nat) : ascii := ascii_of_nat (48 + n mod 10).

Definition two_digits (z : Z) : string :=
  let n := Z.to_nat z in
  String (digit (n / 10)) (String (digit n) EmptyString).

Definition four_digits (z : Z) : string :=
  let n := Z.to_nat z in
  String (digit (n / 1000)) (String (digit (n / 100))
    (String (digit (n / 10)) (String (digit n) EmptyString))).

(** [strftime('%Y-%m-%d-%H')] on one timestamp. *)
Definition strftime_key (t : Timestamp) : string :=
  String.append (four_digits (year t))
   (String.append "-" (String.append (two_digits (month t))
    (String.append "-" (String.append (two_digits (day t))
     (String.append "-" (two_digits (hour t))))))).

(** [series.dt.strftime('%Y-%m-%d-%H')]: a missing timestamp formats to a
    missing string. *)
Definition dt_strftime (ts : list (option Timestamp)) : list value :=
  map (fun t => match t with
                | Some t => VStr (strftime_key t)
                | None => VNull
                end) ts.

(* ================================================================== *)
(** * [groupby(...).transform(...)] *)

Fixpoint mapi_from {A B} (i : nat) (f : nat -> A -> B) (l : list A) : list B :=
  match l with
  | [] => []
  | a :: l' => f i a :: mapi_from (S i) f l'
  end.

Definition mapi {A B} (f : nat -> A -> B) (l : list A) : list B :=
  mapi_from 0 f l.

(** Positions of the rows whose key is [k], in row order. *)
Definition group_positions (keys : list value) (k : value) : list nat :=
  filter (fun j => value_eqb (nth j keys VNull) k) (seq 0 (List.length keys)).

Fixpoint index_of (i : nat) (l : list nat) : nat :=
  match l with
  | [] => 0
  | j :: l' => if Nat.eqb i j then 0 else S (index_of i l')
  end.

(** [groupby(keys)[col].transform(f)]: [f] runs on every group's slice of
    [col] and the outputs go back to the rows they came from.  With the
    default [dropna=True] a row whose key is null belongs to no group and
    its output is null. *)
Definition groupby_transform (keys col : list value)
  (f : list value -> list value) : list value :=
  mapi (fun i _ =>
          let k := nth i keys VNull in
          if is_null k then VNull
          else
            let g := group_positions keys k in
            nth (index_of i g) (f (map (fun j => nth j col VNull) g)) VNull)
       col.

(** [lambda x: x.mask(np.arange(len(x)) != 0, np.nan)]. *)
Definition mask_after_first (x : list value) : list value :=
  mapi (fun p v => if negb (Nat.eqb p 0) then VNull else v) x.

(* ================================================================== *)
(** * The join pipeline (lines 113-160 of the script) *)

Section JoinPipeline.

(** The scalar parser behind [pd.to_datetime]: strings by format,
    numbers as epoch offsets.  It belongs to pandas, not to the script. *)
Variable parse : value -> option Timestamp.

Definition df1_columns : list string :=
  [ "subjective_feedback"; "lu_batch_name"; "au_batch_name"; "au_start_date";
    "feedback_given"; "session_id"; "rating"; "description"; "module_name";
    "topic"; "cancel_reason"; "action_time"; "booked_time";
    "session_start_time" ].

(** Lines 113-121: the sessions table, projected and renamed. *)
Definition build_df1 (sessions : list Row) : result DataFrame :=
  df1 <- getitem_cols df1_columns (DataFrame_of_records sessions) ;;
  Ok (rename [("lu_batch_name", "Batch"); ("module_name", "Module")] df1).

Definition required_df2_cols : list string :=
  [ "session_id"; "Batch"; "mentor_name"; "time_category";
    "session_start_time" ].

(** [required_df2_cols - set(df2.columns)], listed in the order of
    [required_df2_cols]. *)
Definition missing_df2_cols (df2 : DataFrame) : list string :=
  filter (fun c => negb (mem c (columns df2))) required_df2_cols.

(** Lines 124-131: the batch table, renamed and validated. *)
Definition build_df2 (batch : list Row) : result DataFrame :=
  let df2 := rename [("batch", "Batch")] (DataFrame_of_records batch) in
  match missing_df2_cols df2 with
  | [] => Ok df2
  | missing =>
      Raise (ValueError "df2 (batch query) is missing expected columns" missing)
  end.

(** Line 134. *)
Definition merge_df1_df2 (df1 df2 : DataFrame) : result DataFrame :=
  merge Inner ["session_id"; "Batch"] df1 df2.

(** Lines 137-138. *)
Definition parse_timestamps (df : DataFrame) : result DataFrame :=
  sst <- getitem "session_start_time" df ;;
  let df := setitem "session_start_time" (to_datetime_coerce parse sst) df in
  au <- getitem "au_start_date" df ;;
  Ok (setitem "au_start_date" (to_datetime_coerce parse au) df).

(** Lines 140-143. *)
Definition add_month_diff_period (df : DataFrame) : result DataFrame :=
  sst <- getitem "session_start_time" df ;;
  a <- dt sst ;;
  au <- getitem "au_start_date" df ;;
  b <- dt au ;;
  Ok (setitem "month_diff_period"
        (int64_sub (map period_M_ordinal a) (map period_M_ordinal b)) df).

(** Lines 146-148. *)
Definition dedup_rating (df : DataFrame) : result DataFrame :=
  keys <- getitem "session_id" df ;;
  rating <- getitem "rating" df ;;
  Ok (setitem "rating" (groupby_transform keys rating mask_after_first) df).

(** Line 150. *)
Definition add_year_month_date_hour (df : DataFrame) : result DataFrame :=
  sst <- getitem "session_start_time" df ;;
  ts <- dt sst ;;
  Ok (setitem "year_month_date_hour" (dt_strftime ts) df).

(** Lines 137-151 on the merged frame. *)
Definition feature_engineering (df : DataFrame) : result DataFrame :=
  df <- parse_timestamps df ;;
  df <- add_month_diff_period df ;;
  df <- dedup_rating df ;;
  df <- add_year_month_date_hour df ;;
  Ok (drop_duplicates df).

(** Lines 154-157: the slot table. *)
Definition build_df3 (slots : list Row) : result DataFrame :=
  let df3 := DataFrame_of_records slots in
  d <- getitem "date" df3 ;;
  d' <- to_datetime parse d ;;
  let df3 := setitem "date" d' df3 in
  d <- getitem "date" df3 ;;
  ts <- dt d ;;
  let df3 := setitem "year_month_date_hour" (dt_strftime ts) df3 in
  Ok (rename [("ta", "mentor_name")] df3).

(** Line 160. *)
Definition merge_df_df3 (df df3 : DataFrame) : result DataFrame :=
  merge Outer ["year_month_date_hour"; "mentor_name"; "time_category"] df df3.

(** Lines 113-160 in the order the script runs them. *)
Definition join_pipeline (sessions batch slots : list Row)
  : result (DataFrame * DataFrame * DataFrame) :=
  df1 <- build_df1 sessions ;;
  df2 <- build_df2 batch ;;
  df <- merge_df1_df2 df1 df2 ;;
  df <- feature_engineering df ;;
  df3 <- build_df3 slots ;;
  df4 <- merge_df_df3 df df3 ;;
  Ok (df, df3, df4).

End JoinPipeline.

(* ================================================================== *)
(** * A parser for ISO timestamps

    One instance of the scalar parser, for running the pipeline on
    concrete data: [YYYY-MM-DD], optionally followed by [T] or a blank and
    [HH:MM] or [HH:MM:SS]. *)

Fixpoint digits_value (acc : nat) (s : string) : option nat :=
  match s with
  | EmptyString => Some acc
  | String a s' =>
      let n := nat_of_ascii a in
      if Nat.leb 48 n && Nat.leb n 57
      then digits_value (10 * acc + (n - 48)) s'
      else None
  end.

Definition field (s : string) (start len : nat) : option Z :=
  let f := substring start len s in
  if Nat.eqb (String.length f) len
  then option_map Z.of_nat (digits_value 0 f)
  else None.

Definition char_at (s : string) (i : nat) (cs : list ascii) : bool :=
  match get i s with
  | Some a => existsb (Ascii.eqb a) cs
  | None => false
  end.

Definition in_range (lo hi z : Z) : bool := Z.leb lo z && Z.leb z hi.

Definition obind {A B} (m : option A) (k : A -> option B) : option B :=
  match m with Some a => k a | None => None end.

Definition iso_date (s : string) : option (Z * Z * Z) :=
  obind (field s 0 4) (fun y =>
  obind (field s 5 2) (fun m =>
  obind (field s 8 2) (fun d =>
    if char_at s 4 ["-"%char] && char_at s 7 ["-"%char]
       && in_range 1678 2261 y && in_range 1 12 m && in_range 1 31 d
    then Some (y, m, d) else None))).

Definition iso_time (s : string) (with_seconds : bool) : option (Z * Z * Z) :=
  obind (field s 11 2) (fun h =>
  obind (field s 14 2) (fun mi =>
  obind (if with_seconds then field s 17 2 else Some 0%Z) (fun sec =>
    if char_at s 10 ["T"%char; " "%char] && char_at s 13 [":"%char]
       && (negb with_seconds || char_at s 16 [":"%char])
       && in_range 0 23 h && in_range 0 59 mi && in_range 0 59 sec
    then Some (h, mi, sec) else None))).

Definition iso_parse (v : value) : option Timestamp :=
  match v with
  | VStr s =>
      obind (iso_date s) (fun '(y, m, d) =>
        match String.length s with
        | 10 => Some (mkTs y m d 0 0 0)
        | 16 => option_map (fun '(h, mi, sec) => mkTs y m d h mi sec)
                           (iso_time s false)
        | 19 => option_map (fun '(h, mi, sec) => mkTs y m d h mi sec)
                           (iso_time s true)
        | _ => None
        end)
  | _ => None
  end.

(* ================================================================== *)
(** * The run: environment, network and spreadsheet *)

(** The environment variables the script reads (lines 18-28). *)
Record Env := mkEnv
  { ASHRITHA_SECRET_KEY : option string;
    USERNAME : option string;
    SERVICE_ACCOUNT_JSON : option string;
    METABASE_URL : option string;
    TA_SHEET_ACCESS_KEY : option string;
    TA_SESSIONS_QUERY : option string;
    TA_BATCH_QUERY : option string;
    TA_SLOTS_QUERY : option string }.

(** What the outside answers.  A query's answer may depend on the attempt,
    and so may a worksheet's. *)
Record World := mkWorld
  { google_auth : string -> result unit;
    login : string -> option string -> string -> result string;
    post : string -> nat -> result (list Row);
    open_by_key : string -> result unit;
    worksheet : string -> result unit;
    clear : string -> nat -> result unit;
    set_with_dataframe : string -> DataFrame -> nat -> result unit }.

Inductive event :=
| EvLogin (url : string)
| EvPost (url : option string) (attempt : nat)
| EvSleep (seconds : nat)
| EvOpen (key : string)
| EvClear (title : string)
| EvWrite (title : string) (df : DataFrame).

(** A computation leaves a trace of events and ends in a value or in an
    exception. *)
Definition M (A : Type) : Type := (list event * result A)%type.

Definition ret {A} (a : A) : M A := ([], Ok a).
Definition throw {A} (e : exn) : M A := ([], Raise e).
Definition emit (e : event) : M unit := ([e], Ok tt).
Definition lift {A} (r : result A) : M A := ([], r).

Definition mbind {A B} (m : M A) (k : A -> M B) : M B :=
  match m with
  | (t, Ok a) => let (t', r) := k a in (t ++ t', r)
  | (t, Raise e) => (t, Raise e)
  end.

Declare Scope run_scope.
Delimit Scope run_scope with run.
Notation "x <- m ;; k" := (mbind m (fun x => k))
  (at level 61, m at next level, right associativity) : run_scope.
Notation "m ;;; k" := (mbind m (fun _ => k))
  (at level 61, right associativity) : run_scope.

(** [requests.post(url, ...)] followed by [raise_for_status()].  An unset
    query variable reaches [requests] as [None], which it refuses. *)
Definition request (w : World) (url : option string) (attempt : nat)
  : result (list Row) :=
  match url with
  | None => Raise MissingSchema
  | Some u => post w u attempt
  end.

(** The body of the loop of [fetch_with_retry], over the attempts that
    [range(1, retries + 1)] still holds.  Falling off the loop returns
    [None]. *)
Fixpoint fetch_attempts (w : World) (url : option string) (retries delay : nat)
  (attempts : list nat) : M (option (list Row)) :=
  match attempts with
  | [] => ret None
  | attempt :: rest =>
      (emit (EvPost url attempt) ;;;
       match request w url attempt with
       | Ok r => ret (Some r)
       | Raise e =>
           if Nat.ltb attempt retries
           then emit (EvSleep delay) ;;; fetch_attempts w url retries delay rest
           else throw e
       end)%run
  end.

Definition fetch_with_retry (w : World) (url : option string)
  (retries delay : nat) : M (option (list Row)) :=
  fetch_attempts w url retries delay (seq 1 retries).

(** [results[name].json()]. *)
Definition json (r : option (list Row)) : result (list Row) :=
  match r with
  | Some rows => Ok rows
  | None => Raise (AttributeError "'NoneType' object has no attribute 'json'")
  end.

(** Lines 100-108.  The three fetches run on three worker threads and the
    [with] block joins all of them, so each runs to its end whatever the
    others do; the results are then read in the order sessions, batch,
    slots, and the first failure in that order is the one re-raised.  The
    trace lists the three threads' events one thread after the other. *)
Definition fetch_all (w : World) (env : Env)
  : M (option (list Row) * option (list Row) * option (list Row)) :=
  let (t1, r1) := fetch_with_retry w (TA_SESSIONS_QUERY env) 5 15 in
  let (t2, r2) := fetch_with_retry w (TA_BATCH_QUERY env) 5 15 in
  let (t3, r3) := fetch_with_retry w (TA_SLOTS_QUERY env) 5 15 in
  (t1 ++ t2 ++ t3, (a <- r1 ;; b <- r2 ;; c <- r3 ;; Ok (a, b, c))%result).

Definition clear_and_write (w : World) (title : string) (df : DataFrame)
  (attempt : nat) : M unit :=
  (emit (EvClear title) ;;;
   lift (clear w title attempt) ;;;
   emit (EvWrite title df) ;;;
   lift (set_with_dataframe w title df attempt))%run.

Fixpoint update_attempts (w : World) (title : string) (df : DataFrame)
  (attempts : list nat) : M unit :=
  match attempts with
  | [] => ret tt
  | attempt :: rest =>
      match clear_and_write w title df attempt with
      | (t, Ok _) => (t, Ok tt)
      | (t, Raise e) =>
          if Nat.ltb attempt 5
          then let (t', r) := (emit (EvSleep 20) ;;;
                               update_attempts w title df rest)%run in
               (t ++ t', r)
          else (t, Raise e)
      end
  end.

(** Lines 79-95. *)
Definition safe_clear_and_update (w : World) (title : string) (df : DataFrame)
  : M unit :=
  update_attempts w title df (seq 1 5).

(** Python truthiness of an environment value: set and not empty. *)
Definition truthy (o : option string) : bool :=
  match o with
  | Some (String _ _) => true
  | _ => false
  end.

(** [s.rstrip("/")]. *)
Fixpoint rstrip_slash (s : string) : string :=
  match s with
  | EmptyString => EmptyString
  | String a s' =>
      match rstrip_slash s' with
      | EmptyString =>
          if Ascii.eqb a "/" then EmptyString else String a EmptyString
      | t => String a t
      end
  end.

Definition or_empty (o : option string) : string :=
  match o with Some s => s | None => EmptyString end.

(** Lines 18-63: environment checks and the two authentications. *)
Definition startup (w : World) (env : Env) : M string :=
  match METABASE_URL env with
  | None => throw (AttributeError "'NoneType' object has no attribute 'rstrip'")
  | Some base =>
      let MB_URL := String.append (rstrip_slash base) "/api/session" in
      if negb (truthy (ASHRITHA_SECRET_KEY env))
         || negb (truthy (SERVICE_ACCOUNT_JSON env))
      then throw (ValueError
                    "Missing environment variables. Check GitHub secrets." [])
      else if negb (truthy (TA_SHEET_ACCESS_KEY env))
      then throw (ValueError
                    "TA_SHEET_ACCESS_KEY is not set. Check GitHub secrets." [])
      else
        (lift (google_auth w (or_empty (SERVICE_ACCOUNT_JSON env))) ;;;
         emit (EvLogin MB_URL) ;;;
         lift (login w MB_URL (USERNAME env)
                     (or_empty (ASHRITHA_SECRET_KEY env))))%run
  end.

(** Lines 163-170. *)
Definition publish (w : World) (key : string) (df df3 df4 : DataFrame) : M unit :=
  (emit (EvOpen key) ;;;
   lift (open_by_key w key) ;;;
   lift (worksheet w "TA_sessions") ;;;
   safe_clear_and_update w "TA_sessions" df ;;;
   emit (EvSleep 3) ;;;
   lift (worksheet w "TA_slots") ;;;
   safe_clear_and_update w "TA_slots" df3 ;;;
   emit (EvSleep 3) ;;;
   lift (worksheet w "TA-sessions-all") ;;;
   safe_clear_and_update w "TA-sessions-all" df4)%run.

(** The whole script. *)
Definition main (parse : value -> option Timestamp) (w : World) (env : Env)
  : M unit :=
  (token <- startup w env ;;
   res <- fetch_all w env ;;
   let '(sessions, batch, slots) := res in
   tables <- lift (s <- json sessions ;; b <- json batch ;; sl <- json slots ;;
                   join_pipeline parse s b sl)%result ;;
   let '(df, df3, df4) := tables in
   publish w (or_empty (TA_SHEET_ACCESS_KEY env)) df df3 df4)%run.

(** An uncaught exception ends the interpreter with status 1 after
    printing the traceback and the exception's message. *)
Definition exit_status {A} (m : M A) : nat :=
  match snd m with Ok _ => 0 | Raise _ => 1 end.

Definition is_write (e : event) : bool :=
  match e with EvClear _ | EvWrite _ _ => true | _ => false end.

Definition is_post (e : event) : bool :=
  match e with EvPost _ _ => true | _ => false end.

Definition is_sleep (e : event) : bool :=
  match e with EvSleep _ => true | _ => false end.

(* ================================================================== *)
(** * Sample data *)

Module Sample.

(** A world in which every call succeeds and the three queries answer
    with the given records. *)
Definition world (sessions batch slots : list Row) : World :=
  mkWorld (fun _ => Ok tt)
          (fun _ _ _ => Ok "token")
          (fun url _ =>
             if string_dec url "card/6135" then Ok sessions
             else if string_dec url "card/6570" then Ok batch
             else Ok slots)
          (fun _ => Ok tt)
          (fun _ => Ok tt)
          (fun _ _ => Ok tt)
          (fun _ _ _ => Ok tt).

(** The same world, except that the sessions query fails on its first
    [n] attempts with status 503. *)
Definition flaky_world (n : nat) (sessions batch slots : list Row) : World :=
  mkWorld (fun _ => Ok tt)
          (fun _ _ _ => Ok "token")
          (fun url attempt =>
             if string_dec url "card/6135"
             then if Nat.leb attempt n then Raise (HTTPError (500 + attempt))
                  else Ok sessions
             else if string_dec url "card/6570" then Ok batch
             else Ok slots)
          (fun _ => Ok tt)
          (fun _ => Ok tt)
          (fun _ _ => Ok tt)
          (fun _ _ _ => Ok tt).

Definition env : Env :=
  mkEnv (Some "secret") (Some "user") (Some "{}")
        (Some "https://metabase.example/") (Some "sheet-key")
        (Some "card/6135") (Some "card/6570") (Some "card/6213").

(** The environment with [TA_SESSIONS_QUERY] unset. *)
Definition env_without_sessions_query : Env :=
  mkEnv (Some "secret") (Some "user") (Some "{}")
        (Some "https://metabase.example/") (Some "sheet-key")
        None (Some "card/6570") (Some "card/6213").

Definition session (sid : Z) (batch : string) (rating sst : value) : Row :=
  [ ("subjective_feedback", VStr "fine"); ("lu_batch_name", VStr batch);
    ("au_batch_name", VStr batch);
    ("au_start_date", VStr "2024-01-20T23:00");
    ("feedback_given", VInt 1); ("session_id", VInt sid); ("rating", rating);
    ("description", VNull); ("module_name", VStr "SQL"); ("topic", VNull);
    ("cancel_reason", VNull); ("action_time", VNull); ("booked_time", VNull);
    ("session_start_time", sst) ].

Definition batch_row (sid : Z) (batch : string) : Row :=
  [ ("session_id", VInt sid); ("batch", VStr batch);
    ("mentor_name", VStr "Asha"); ("time_category", VStr "evening");
    ("session_start_time", VStr "2024-03-05T08:00") ].

(** A batch record without the [mentor_name] column. *)
Definition batch_row_without_mentor (sid : Z) (batch : string) : Row :=
  [ ("session_id", VInt sid); ("batch", VStr batch);
    ("time_category", VStr "evening");
    ("session_start_time", VStr "2024-03-05T08:00") ].

Definition slot (date : value) (ta : string) : Row :=
  [ ("date", date); ("time_category", VStr "evening"); ("ta", VStr ta);
    ("slot_id", VInt 7) ].

(** A frame of the shape the feature engineering reads: one
    [session_start_time] column next to the session and batch columns. *)
Definition joined (recs : list Row) : DataFrame := DataFrame_of_records recs.

Definition joined_row (sid : Z) (rating sst au : value) : Row :=
  [ ("session_id", VInt sid); ("Batch", VStr "B1"); ("rating", rating);
    ("au_start_date", au); ("mentor_name", VStr "Asha");
    ("time_category", VStr "evening"); ("session_start_time", sst) ].

End Sample.

(* ================================================================== *)
(** * Notions used in the statements *)

Fixpoint last_char (s : string) : option ascii :=
  match s with
  | EmptyString => None
  | String a EmptyString => Some a
  | String _ s' => last_char s'
  end.

Definition as_ts (v : value) : option Timestamp :=
  match v with VTime t => Some t | _ => None end.

Definition coerce_cell (parse : value -> option Timestamp) (v : value) : value :=
  match to_datetime_cell parse v with Some x => x | None => VNull end.

Definition strftime_cell (t : option Timestamp) : value :=
  match t with Some t => VStr (strftime_key t) | None => VNull end.

(** Lines 137-138 on one row. *)
Definition parsed_row (parse : value -> option Timestamp) (r : Row) : Row :=
  let r1 := set_cell "session_start_time"
                     (coerce_cell parse (cell r "session_start_time")) r in
  set_cell "au_start_date" (coerce_cell parse (cell r1 "au_start_date")) r1.

(** Lines 140-143 on one row. *)
Definition month_diff_row (r : Row) : Row :=
  set_cell "month_diff_period"
    (VInt (wrap64 (period_M_ordinal (as_ts (cell r "session_start_time"))
                   - period_M_ordinal (as_ts (cell r "au_start_date"))))) r.

(** Line 150 on one row. *)
Definition key_row (r : Row) : Row :=
  set_cell "year_month_date_hour"
    (strftime_cell (as_ts (cell r "session_start_time"))) r.

(** The rows of the merged frame after lines 137-143. *)
Definition dated_rows (parse : value -> option Timestamp) (df : DataFrame)
  : list Row :=
  map month_diff_row (map (parsed_row parse) (rows df)).

(** The same rows after lines 146-148. *)
Definition rated_rows (parse : value -> option Timestamp) (df : DataFrame)
  : list Row :=
  map (fun rv => set_cell "rating" (snd rv) (fst rv))
      (combine (dated_rows parse df)
         (groupby_transform
            (map (fun r => cell r "session_id") (dated_rows parse df))
            (map (fun r => cell r "rating") (dated_rows parse df))
            mask_after_first)).



(** A frame whose labels are distinct and whose rows bind exactly them. *)
Definition well_formed (df : DataFrame) : Prop :=
  NoDup (columns df) /\ forall r, In r (rows df) -> map fst r = columns df.


Definition df2_of (batch : list Row) : DataFrame :=
  rename [("batch", "Batch")] (DataFrame_of_records batch).

Definition validation_error (batch : list Row) : exn :=
  ValueError "df2 (batch query) is missing expected columns"
             (missing_df2_cols (df2_of batch)).

Definition five_attempts (url : option string) : list event :=
  [ EvPost url 1; EvSleep 15; EvPost url 2; EvSleep 15; EvPost url 3;
    EvSleep 15; EvPost url 4; EvSleep 15; EvPost url 5 ].

(** Kinds of events, for counting them in a trace. *)
Definition is_clear (e : event) : bool :=
  match e with EvClear _ => true | _ => false end.

Definition is_update (e : event) : bool :=
  match e with EvWrite _ _ => true | _ => false end.

Definition is_login (e : event) : bool :=
  match e with EvLogin _ => true | _ => false end.

(** The event clears or writes the worksheet [title]. *)
Definition about (title : string) (e : event) : bool :=
  match e with
  | EvClear t | EvWrite t _ => if string_dec t title then true else false
  | _ => false
  end.

Definition count (p : event -> bool) (t : list event) : nat :=
  List.length (filter p t).

(** The labels some record of a dataset carries. *)
Definition carried (recs : list Row) (c : string) : Prop :=
  exists rec, In rec recs /\ In c (map fst rec).

(** The hour bucket of a timestamp. *)
Definition hour_bucket (t : Timestamp) : Z * Z * Z * Z :=
  (year t, month t, day t, hour t).

(** Calendar fields of a timestamp pandas can represent. *)
Definition fields_ok (t : Timestamp) : Prop :=
  (1677 <= year t <= 2262)%Z /\ (1 <= month t <= 12)%Z
  /\ (1 <= day t <= 31)%Z /\ (0 <= hour t <= 23)%Z.

(* ================================================================== *)
(** * Sample frames *)

Definition three_feedback_rows : DataFrame :=
  Sample.joined
    [ Sample.joined_row 1 (VInt 5) (VStr "2024-03-05T08:00") (VStr "2024-01-20T23:00");
      Sample.joined_row 2 (VInt 3) (VStr "2024-03-06T09:00") (VStr "2024-01-20T23:00");
      Sample.joined_row 1 (VInt 4) (VStr "2024-03-05T08:00") (VStr "2024-01-20T23:00") ].

Definition march_session_january_batch : DataFrame :=
  Sample.joined
    [ Sample.joined_row 1 (VInt 5) (VStr "2024-03-05T08:00") (VStr "2024-01-20T23:00") ].

Definition two_sessions : list Row :=
  [ Sample.session 1 "B1" (VInt 5) (VStr "2024-03-05T08:00");
    Sample.session 2 "B9" (VInt 4) (VStr "2024-03-06T08:00") ].

Definition two_batches : list Row :=
  [ Sample.batch_row 1 "B1"; Sample.batch_row 3 "B1" ].

(** Two engineered session rows and two slot rows: the first session
    matches the first slot, the second session and the second slot match
    nothing. *)
Definition engineered_sessions : DataFrame :=
  Eval vm_compute in
    match feature_engineering iso_parse
            (Sample.joined
               [ Sample.joined_row 1 (VInt 5) (VStr "2024-03-05T08:00")
                                   (VStr "2024-01-20T23:00");
                 Sample.joined_row 2 (VInt 4) (VStr "2024-03-06T10:00")
                                   (VStr "2024-01-20T23:00") ]) with
    | Ok d => d
    | Raise _ => mkDF [] []
    end.

Definition parsed_slots : DataFrame :=
  Eval vm_compute in
    match build_df3 iso_parse
            [ Sample.slot (VStr "2024-03-05T08:00") "Asha";
              Sample.slot (VStr "2024-03-07T08:00") "Asha" ] with
    | Ok d => d
    | Raise _ => mkDF [] []
    end.

Definition session_without_start_time : DataFrame :=
  Sample.joined [ Sample.joined_row 1 (VInt 5) VNull (VStr "2024-01-20T23:00") ].

Definition session_with_bad_start_time : list Row :=
  [ Sample.session 1 "B1" (VInt 5) (VStr "2024-13-45T08:00") ].

Definition one_session : list Row :=
  [ Sample.session 1 "B1" (VInt 5) (VStr "2024-03-05T08:00") ].

Definition batch_without_mentor : list Row :=
  [ Sample.batch_row_without_mentor 1 "B1" ].

(** The sessions query fails four times, then answers. *)
Definition world_four_failures : World := Sample.flaky_world 4 one_session [] [].

(** The sessions query fails five times. *)
Definition world_five_failures : World := Sample.flaky_world 5 one_session [] [].

(** The batch query answers without a [mentor_name] column. *)
Definition world_without_mentor : World :=
  Sample.world one_session batch_without_mentor [].

(** The same, and the sessions query answers with no record at all. *)
Definition world_without_sessions : World :=
  Sample.world [] batch_without_mentor [].

(** A spreadsheet whose clears fail on the attempts up to [c] and whose
    writes fail on the attempts up to [u]. *)
Definition flaky_sheet (c u : nat) : World :=
  mkWorld (fun _ => Ok tt)
          (fun _ _ _ => Ok "token")
          (fun _ _ => Ok [])
          (fun _ => Ok tt)
          (fun _ => Ok tt)
          (fun _ a => if Nat.leb a c then Raise (APIError "clear") else Ok tt)
          (fun _ _ a => if Nat.leb a u then Raise (APIError "write") else Ok tt).

(** The environment with another [METABASE_URL]. *)
Definition with_metabase_url (env : Env) (u : string) : Env :=
  mkEnv (ASHRITHA_SECRET_KEY env) (USERNAME env) (SERVICE_ACCOUNT_JSON env)
        (Some u) (TA_SHEET_ACCESS_KEY env) (TA_SESSIONS_QUERY env)
        (TA_BATCH_QUERY env) (TA_SLOTS_QUERY env).

(** The environment with an empty [SERVICE_ACCOUNT_JSON]. *)
Definition env_with_empty_payload : Env :=
  mkEnv (Some "secret") (Some "user") (Some "")
        (Some "https://metabase.example/") (Some "sheet-key")
        (Some "card/6135") (Some "card/6570") (Some "card/6213").

(* ================================================================== *)
(** * Basic facts about labels, rows and frames *)

Lemma mem_true c cs : mem c cs = true <-> In c cs.
Proof. unfold mem. destruct (in_dec string_dec c cs); split; congruence || auto. Qed.

Lemma mem_false c cs : mem c cs = false <-> ~ In c cs.
Proof. unfold mem. destruct (in_dec string_dec c cs); split; congruence || auto. Qed.

Lemma value_eqb_eq a b : value_eqb a b = true <-> a = b.
Proof. unfold value_eqb. destruct (value_eq_dec a b); split; congruence. Qed.

Lemma lookup_app c (a b : Row) :
  lookup c (a ++ b) = match lookup c a with Some v => Some v | None => lookup c b end.
Proof.
  induction a as [ | [c' v] a IH ]; simpl; [ reflexivity | ].
  destruct (string_dec c c'); auto.
Qed.

Lemma lookup_None c (r : Row) : lookup c r = None <-> ~ In c (map fst r).
Proof.
  induction r as [ | [c' v] r IH ]; simpl.
  - tauto.
  - destruct (string_dec c c') as [-> | n].
    + split; [ discriminate | intros H; exfalso; apply H; auto ].
    + rewrite IH. split; intros H; [ intros [E | I]; congruence || auto | tauto ].
Qed.

Lemma cell_set_cell_same c v r : cell (set_cell c v r) c = v.
Proof.
  unfold cell. induction r as [ | [c' v'] r IH ]; simpl.
  - destruct (string_dec c c); congruence.
  - destruct (string_dec c c') as [-> | n]; simpl.
    + destruct (string_dec c' c'); congruence.
    + destruct (string_dec c c'); congruence.
Qed.

Lemma cell_set_cell_other c c' v r : c <> c' -> cell (set_cell c v r) c' = cell r c'.
Proof.
  intros n. unfold cell. induction r as [ | [c0 v0] r IH ]; simpl.
  - destruct (string_dec c' c); congruence.
  - destruct (string_dec c c0) as [-> | n0]; simpl.
    + destruct (string_dec c' c0); congruence.
    + destruct (string_dec c' c0); congruence.
Qed.

Lemma cell_project cs r c : In c cs -> cell (project cs r) c = cell r c.
Proof.
  unfold project, cell at 1. induction cs as [ | c0 cs IH ]; simpl; [ tauto | ].
  intros [-> | I].
  - destruct (string_dec c c); congruence.
  - destruct (string_dec c c0) as [-> | n]; auto.
Qed.


Lemma lookup_relabel_absent (f : string -> string) k (r : Row) :
  ~ In k (map f (map fst r)) -> lookup k (relabel f r) = None.
Proof.
  intros H. apply lookup_None. unfold relabel. rewrite map_map. simpl.
  rewrite <- map_map. exact H.
Qed.

(** A label that only itself is sent to is looked up as before. *)
Lemma lookup_relabel_fixed (f : string -> string) k (r : Row) :
  f k = k -> (forall c, f c = k -> c = k) ->
  lookup k (relabel f r) = lookup k r.
Proof.
  intros fk only. induction r as [ | [c0 v0] r IH ]; simpl; [ reflexivity | ].
  destruct (string_dec k (f c0)) as [E | n].
  - symmetry in E. apply only in E. subst c0.
    destruct (string_dec k k); congruence.
  - destruct (string_dec k c0) as [-> | _]; [ congruence | exact IH ].
Qed.

Lemma getitem_Ok c df vs :
  getitem c df = Ok vs ->
  In c (columns df) /\ vs = map (fun r => cell r c) (rows df).
Proof.
  unfold getitem. destruct (mem c (columns df)) eqn:E; [ | discriminate ].
  intros [= <-]. split; [ apply mem_true; exact E | reflexivity ].
Qed.


Lemma getitem_absent c df :
  ~ In c (columns df) -> getitem c df = Raise (KeyError [c]).
Proof. intros I. unfold getitem. apply mem_false in I. rewrite I. reflexivity. Qed.

Lemma combine_map_l {A B} (f : A -> B) (l : list A) :
  combine l (map f l) = map (fun a => (a, f a)) l.
Proof. induction l; simpl; congruence. Qed.

(** Writing a column computed row by row. *)
Lemma rows_setitem_map c (f : Row -> value) df :
  rows (setitem c (map f (rows df)) df) = map (fun r => set_cell c (f r) r) (rows df).
Proof. unfold setitem; simpl. rewrite combine_map_l, map_map. reflexivity. Qed.

Lemma columns_setitem c vals df :
  forall c', In c' (columns (setitem c vals df)) <-> In c' (columns df) \/ c' = c.
Proof.
  intros c'. unfold setitem; simpl. destruct (mem c (columns df)) eqn:E.
  - apply mem_true in E. split; [ auto | intros [H | ->]; auto ].
  - rewrite in_app_iff. simpl. split; intros [H | H]; auto.
    + destruct H as [<- | []]. auto.
Qed.

Lemma drop_dups_incl seen rs r : In r (drop_dups seen rs) -> In r rs.
Proof.
  revert seen. induction rs as [ | r0 rs IH ]; simpl; intros seen; [ tauto | ].
  destruct (in_dec Row_eq_dec r0 seen).
  - intros H. right. eapply IH; eauto.
  - intros [-> | H]; [ auto | right; eapply IH; eauto ].
Qed.

Lemma drop_dups_complete seen rs r :
  In r rs -> ~ In r seen -> In r (drop_dups seen rs).
Proof.
  revert seen. induction rs as [ | r0 rs IH ]; simpl; intros seen; [ tauto | ].
  intros [-> | I] ns.
  - destruct (in_dec Row_eq_dec r seen); [ contradiction | left; reflexivity ].
  - destruct (in_dec Row_eq_dec r0 seen).
    + apply IH; assumption.
    + destruct (Row_eq_dec r0 r) as [-> | ne]; [ left; reflexivity | right ].
      apply IH; [ assumption | ]. intros [E | H]; congruence || auto.
Qed.

Lemma in_distinct c seen cs : In c (distinct seen cs) <-> In c cs /\ ~ In c seen.
Proof.
  revert seen. induction cs as [ | c0 cs IH ]; simpl; intros seen.
  - tauto.
  - destruct (mem c0 seen) eqn:E.
    + apply mem_true in E. rewrite IH. split.
      * tauto.
      * intros [[-> | I] ns]; [ contradiction | tauto ].
    + apply mem_false in E. simpl. rewrite IH. simpl. split.
      * intros [-> | [I ns]]; [ tauto | tauto ].
      * intros [[-> | I] ns]; [ tauto | ].
        destruct (string_dec c0 c) as [-> | ne]; [ tauto | ].
        right. split; [ assumption | ]. intros [H | H]; congruence || auto.
Qed.

Lemma columns_of_records recs c :
  In c (columns (DataFrame_of_records recs)) <->
  exists rec, In rec recs /\ In c (map fst rec).
Proof.
  unfold DataFrame_of_records; simpl. rewrite in_distinct, in_flat_map.
  simpl. split; [ intros [H _]; exact H | intros H; split; [ exact H | tauto ] ].
Qed.

Lemma columns_rename m df c :
  In c (columns (rename m df)) <->
  exists c0, In c0 (columns df) /\ rename_label m c0 = c.
Proof.
  unfold rename; simpl. rewrite in_map_iff.
  split; intros [c0 H]; exists c0; tauto.
Qed.

(* ================================================================== *)
(** * The retry loops *)

Lemma fetch_attempts_step w url retries delay a rest :
  fetch_attempts w url retries delay (a :: rest) =
  match request w url a with
  | Ok r => ([EvPost url a], Ok (Some r))
  | Raise e =>
      if Nat.ltb a retries
      then (EvPost url a :: EvSleep delay
              :: fst (fetch_attempts w url retries delay rest),
            snd (fetch_attempts w url retries delay rest))
      else ([EvPost url a], Raise e)
  end.
Proof.
  simpl. destruct (request w url a); [ reflexivity | ].
  destruct (Nat.ltb a retries); [ | reflexivity ].
  simpl. destruct (fetch_attempts w url retries delay rest); reflexivity.
Qed.

(** The events of a fetch are requests and pauses only. *)
Lemma fetch_attempts_events w url retries delay attempts ev :
  In ev (fst (fetch_attempts w url retries delay attempts)) ->
  (exists a, ev = EvPost url a /\ In a attempts) \/ ev = EvSleep delay.
Proof.
  induction attempts as [ | a rest IH ]; [ simpl; tauto | ].
  rewrite fetch_attempts_step.
  destruct (request w url a).
  - simpl. intros [<- | []]. left. exists a. auto.
  - destruct (Nat.ltb a retries); simpl.
    + intros [<- | [<- | H]].
      * left. exists a. auto.
      * right. reflexivity.
      * destruct (IH H) as [(a' & -> & I) | ->]; [ left; exists a'; auto | auto ].
    + intros [<- | []]. left. exists a. auto.
Qed.

Lemma fetch_with_retry_no_write w url retries delay :
  filter is_write (fst (fetch_with_retry w url retries delay)) = [].
Proof.
  unfold fetch_with_retry.
  assert (H : forall ev,
             In ev (fst (fetch_attempts w url retries delay (seq 1 retries))) ->
             is_write ev = false).
  { intros ev I. apply fetch_attempts_events in I.
    destruct I as [(a & -> & _) | ->]; reflexivity. }
  induction (fst (fetch_attempts w url retries delay (seq 1 retries))) as [ | ev t IH ];
    [ reflexivity | ].
  simpl. rewrite (H ev) by (left; reflexivity).
  apply IH. intros ev' I. apply H. right. exact I.
Qed.

Lemma fetch_all_no_write w env :
  filter is_write (fst (fetch_all w env)) = [].
Proof.
  unfold fetch_all.
  pose proof (fetch_with_retry_no_write w (TA_SESSIONS_QUERY env) 5 15) as H1.
  pose proof (fetch_with_retry_no_write w (TA_BATCH_QUERY env) 5 15) as H2.
  pose proof (fetch_with_retry_no_write w (TA_SLOTS_QUERY env) 5 15) as H3.
  destruct (fetch_with_retry w (TA_SESSIONS_QUERY env) 5 15) as [t1 r1].
  destruct (fetch_with_retry w (TA_BATCH_QUERY env) 5 15) as [t2 r2].
  destruct (fetch_with_retry w (TA_SLOTS_QUERY env) 5 15) as [t3 r3].
  simpl in *. rewrite !filter_app, H1, H2, H3. reflexivity.
Qed.

Lemma startup_no_write w env :
  filter is_write (fst (startup w env)) = [].
Proof.
  unfold startup.
  destruct (METABASE_URL env); [ | reflexivity ].
  destruct (negb (truthy (ASHRITHA_SECRET_KEY env))
            || negb (truthy (SERVICE_ACCOUNT_JSON env))); [ reflexivity | ].
  destruct (negb (truthy (TA_SHEET_ACCESS_KEY env))); [ reflexivity | ].
  unfold mbind, lift, emit.
  destruct (google_auth w (or_empty (SERVICE_ACCOUNT_JSON env))); [ | reflexivity ].
  destruct (login w _ (USERNAME env) (or_empty (ASHRITHA_SECRET_KEY env)));
    reflexivity.
Qed.

(** What [main] does once the fetches have ended, as a function of the
    start-up and of the fetch results. *)
Lemma main_unfold parse w env :
  main parse w env =
  match startup w env with
  | (t0, Raise e) => (t0, Raise e)
  | (t0, Ok _) =>
      match fetch_all w env with
      | (t1, Raise e) => (t0 ++ t1, Raise e)
      | (t1, Ok (sessions, batch, slots)) =>
          match (s <- json sessions ;; b <- json batch ;; sl <- json slots ;;
                 join_pipeline parse s b sl)%result with
          | Raise e => (t0 ++ t1 ++ [], Raise e)
          | Ok (df, df3, df4) =>
              (t0 ++ t1 ++ [] ++
                 fst (publish w (or_empty (TA_SHEET_ACCESS_KEY env)) df df3 df4),
               snd (publish w (or_empty (TA_SHEET_ACCESS_KEY env)) df df3 df4))
          end
      end
  end.
Proof.
  unfold main, mbind.
  destruct (startup w env) as [t0 [tok | e]]; [ | reflexivity ].
  destruct (fetch_all w env) as [t1 [[[s b] sl] | e]]; [ | reflexivity ].
  unfold lift.
  destruct (s0 <- json s ;; b0 <- json b ;; sl0 <- json sl ;;
            join_pipeline parse s0 b0 sl0)%result as [[[df df3] df4] | e];
    [ | reflexivity ].
  destruct (publish w (or_empty (TA_SHEET_ACCESS_KEY env)) df df3 df4); reflexivity.
Qed.

(** A failed fetch ends the run: nothing is written and the status is 1. *)
Lemma main_fetch_failure parse w env e :
  snd (fetch_all w env) = Raise e ->
  exit_status (main parse w env) = 1
  /\ filter is_write (fst (main parse w env)) = []
  /\ (forall tok, snd (startup w env) = Ok tok -> snd (main parse w env) = Raise e).
Proof.
  intros F. rewrite main_unfold.
  pose proof (startup_no_write w env) as S0.
  pose proof (fetch_all_no_write w env) as S1.
  destruct (startup w env) as [t0 [tok | e0]]; simpl in *.
  - destruct (fetch_all w env) as [t1 [res | e1]]; simpl in *; [ discriminate | ].
    injection F as ->. unfold exit_status; simpl.
    rewrite filter_app, S0, S1. repeat split; auto.
  - unfold exit_status; simpl. repeat split; auto. intros tok; discriminate.
Qed.

Lemma fetch_all_failure w env :
  (exists e, snd (fetch_with_retry w (TA_SESSIONS_QUERY env) 5 15) = Raise e)
  \/ (exists e, snd (fetch_with_retry w (TA_BATCH_QUERY env) 5 15) = Raise e)
  \/ (exists e, snd (fetch_with_retry w (TA_SLOTS_QUERY env) 5 15) = Raise e) ->
  exists e, snd (fetch_all w env) = Raise e.
Proof.
  unfold fetch_all.
  destruct (fetch_with_retry w (TA_SESSIONS_QUERY env) 5 15) as [t1 [r1 | e1]];
  destruct (fetch_with_retry w (TA_BATCH_QUERY env) 5 15) as [t2 [r2 | e2]];
  destruct (fetch_with_retry w (TA_SLOTS_QUERY env) 5 15) as [t3 [r3 | e3]];
  simpl; intros [[e H] | [[e H] | [e H]]]; try discriminate; eauto.
Qed.

(** C7.  [fetch_with_retry] with the script's [retries=5, delay=15] posts
    at most five times and pauses 15 seconds, and nothing else, after a
    failed attempt that is not the last.  When attempts 1-4 fail and the
    fifth succeeds it returns the fifth response and raises nothing; when
    all five fail it raises the failure of the fifth attempt, and a run in
    which one of the three fetches ends that way exits with status 1
    without a single clear or write of a worksheet. *)
Theorem fetch_with_retry_five_attempts (w : World) (url : option string) :
  List.length (filter is_post (fst (fetch_with_retry w url 5 15))) <= 5
  /\ (forall ev, In ev (fst (fetch_with_retry w url 5 15)) ->
                 is_sleep ev = true -> ev = EvSleep 15)
  /\ (forall e1 e2 e3 e4 r,
         request w url 1 = Raise e1 -> request w url 2 = Raise e2 ->
         request w url 3 = Raise e3 -> request w url 4 = Raise e4 ->
         request w url 5 = Ok r ->
         fetch_with_retry w url 5 15 = (five_attempts url, Ok (Some r)))
  /\ (forall e1 e2 e3 e4 e5,
         request w url 1 = Raise e1 -> request w url 2 = Raise e2 ->
         request w url 3 = Raise e3 -> request w url 4 = Raise e4 ->
         request w url 5 = Raise e5 ->
         fetch_with_retry w url 5 15 = (five_attempts url, Raise e5))
  /\ (forall parse env e,
         snd (fetch_with_retry w url 5 15) = Raise e ->
         url = TA_SESSIONS_QUERY env \/ url = TA_BATCH_QUERY env
         \/ url = TA_SLOTS_QUERY env ->
         exit_status (main parse w env) = 1
         /\ filter is_write (fst (main parse w env)) = []).
Proof.
  split; [ | split; [ | split; [ | split ] ] ].
  - unfold fetch_with_retry. simpl seq.
    rewrite !fetch_attempts_step.
    destruct (request w url 1); simpl; [ lia | ].
    destruct (request w url 2); simpl; [ lia | ].
    destruct (request w url 3); simpl; [ lia | ].
    destruct (request w url 4); simpl; [ lia | ].
    destruct (request w url 5); simpl; lia.
  - intros ev I S. unfold fetch_with_retry in I.
    apply fetch_attempts_events in I.
    destruct I as [(a & -> & _) | ->]; [ discriminate | reflexivity ].
  - intros e1 e2 e3 e4 r H1 H2 H3 H4 H5. unfold fetch_with_retry. simpl seq.
    rewrite !fetch_attempts_step, H1, H2, H3, H4, H5. reflexivity.
  - intros e1 e2 e3 e4 e5 H1 H2 H3 H4 H5. unfold fetch_with_retry. simpl seq.
    rewrite !fetch_attempts_step, H1, H2, H3, H4, H5. reflexivity.
  - intros parse env e F U.
    destruct (fetch_all_failure w env) as [e' F'].
    { destruct U as [<- | [<- | <-]]; eauto. }
    destruct (main_fetch_failure parse w env F') as (X & Y & _). auto.
Qed.

Lemma fetch_with_retry_five_attempts_witness :
  fetch_with_retry world_four_failures (Some "card/6135") 5 15
  = (five_attempts (Some "card/6135"), Ok (Some one_session))
  /\ fetch_with_retry world_five_failures (Some "card/6135") 5 15
     = (five_attempts (Some "card/6135"), Raise (HTTPError 505))
  /\ exit_status (main iso_parse world_five_failures Sample.env) = 1
  /\ filter is_write (fst (main iso_parse world_five_failures Sample.env)) = [].
Proof.
  destruct (fetch_with_retry_five_attempts world_four_failures (Some "card/6135"))
    as (_ & _ & H4 & _).
  destruct (fetch_with_retry_five_attempts world_five_failures (Some "card/6135"))
    as (_ & _ & _ & H5 & Hm).
  split; [ | split ].
  - apply (H4 (HTTPError 501) (HTTPError 502) (HTTPError 503) (HTTPError 504));
      reflexivity.
  - apply (H5 (HTTPError 501) (HTTPError 502) (HTTPError 503) (HTTPError 504));
      reflexivity.
  - apply (Hm iso_parse Sample.env (HTTPError 505)).
    + reflexivity.
    + left. reflexivity.
Defined.

(* ================================================================== *)
(** * Labels after a merge *)

Lemma last_char_append c s :
  s <> EmptyString -> last_char (String.append c s) = last_char s.
Proof.
  intros ne. induction c as [ | a c IH ]; simpl; [ reflexivity | ].
  destruct (String.append c s) eqn:E; [ | exact IH ].
  destruct c; simpl in E; [ congruence | discriminate ].
Qed.

Lemma length_append c s :
  String.length (String.append c s) = String.length c + String.length s.
Proof. induction c; simpl; congruence. Qed.

Lemma append_suffix_neq c a b : String.append c (String a (String b EmptyString)) <> c.
Proof.
  intros E. apply (f_equal String.length) in E.
  rewrite length_append in E. simpl in E. lia.
Qed.

Lemma llabel_key on rcols k : In k on -> llabel on rcols k = k.
Proof. intros I. unfold llabel. apply mem_true in I. rewrite I. reflexivity. Qed.


Lemma llabel_only on rcols c k :
  last_char k <> Some "x"%char -> llabel on rcols c = k -> c = k.
Proof.
  intros L. unfold llabel.
  destruct (mem c on); [ auto | ].
  destruct (mem c rcols); [ | auto ].
  intros <-. exfalso. apply L. rewrite last_char_append by discriminate. reflexivity.
Qed.

Lemma rlabel_only on lcols c k :
  last_char k <> Some "y"%char -> rlabel on lcols c = k -> c = k.
Proof.
  intros L. unfold rlabel.
  destruct (mem c on); [ auto | ].
  destruct (mem c lcols); [ | auto ].
  intros <-. exfalso. apply L. rewrite last_char_append by discriminate. reflexivity.
Qed.

Lemma filter_nil_forall {A} (f : A -> bool) l :
  filter f l = [] -> forall a, In a l -> f a = false.
Proof.
  induction l as [ | x l IH ]; simpl; [ tauto | ].
  destruct (f x) eqn:E; [ discriminate | ].
  intros H a [<- | I]; auto.
Qed.

(** What a successful merge returns. *)
Lemma merge_Ok h on L R D :
  merge h on L R = Ok D ->
  columns D = map (llabel on (columns R)) (columns L)
              ++ map (rlabel on (columns L)) (filter (nonkey on) (columns R))
  /\ rows D = match h with Inner => inner_rows on L R | Outer => outer_rows on L R end
  /\ (forall k, In k on -> In k (columns L) /\ In k (columns R)).
Proof.
  unfold merge.
  destruct (filter (fun k => negb (mem k (columns L) && mem k (columns R))) on)
    as [ | k0 ks ] eqn:K; [ | discriminate ].
  destruct (filter (fun k => repeated k (columns L) || repeated k (columns R)) on);
    [ | discriminate ].
  destruct (_ || _); [ discriminate | ].
  intros [= <-]. simpl. repeat split.
  - apply mem_true. pose proof (filter_nil_forall _ _ K k H) as F.
    apply negb_false_iff, andb_true_iff in F. tauto.
  - apply mem_true. pose proof (filter_nil_forall _ _ K k H) as F.
    apply negb_false_iff, andb_true_iff in F. tauto.
Qed.

(** A non-key label carried by both frames is not a label of the merged
    frame: both copies have been given a suffix. *)
Lemma merge_shared_label_lost h on L R D k :
  merge h on L R = Ok D ->
  In k (columns L) -> In k (columns R) -> ~ In k on ->
  last_char k <> Some "x"%char -> last_char k <> Some "y"%char ->
  ~ In k (columns D).
Proof.
  intros M IL IR nk Lx Ly I.
  destruct (merge_Ok _ _ _ _ M) as (C & _ & _). rewrite C in I.
  apply in_app_iff in I. destruct I as [I | I]; apply in_map_iff in I;
    destruct I as (c & E & Ic).
  - pose proof (llabel_only _ _ _ Lx E) as ->.
    unfold llabel in E. apply mem_false in nk. rewrite nk in E.
    apply mem_true in IR. rewrite IR in E. eapply append_suffix_neq; exact E.
  - pose proof (rlabel_only _ _ _ Ly E) as ->.
    unfold rlabel in E. apply mem_false in nk. rewrite nk in E.
    apply mem_true in IL. rewrite IL in E. eapply append_suffix_neq; exact E.
Qed.

(* ================================================================== *)
(** * The tables built from the three datasets *)

Lemma build_df1_columns sessions df1 :
  build_df1 sessions = Ok df1 ->
  columns df1 =
    [ "subjective_feedback"; "Batch"; "au_batch_name"; "au_start_date";
      "feedback_given"; "session_id"; "rating"; "description"; "Module";
      "topic"; "cancel_reason"; "action_time"; "booked_time";
      "session_start_time" ].
Proof.
  unfold build_df1, getitem_cols.
  destruct (filter _ df1_columns); [ | discriminate ].
  simpl. intros [= <-]. reflexivity.
Qed.

Lemma build_df2_columns batch df2 :
  build_df2 batch = Ok df2 ->
  forall c, In c required_df2_cols -> In c (columns df2).
Proof.
  unfold build_df2.
  destruct (missing_df2_cols _) eqn:E; [ | discriminate ].
  intros [= <-] c I. unfold missing_df2_cols in E.
  pose proof (filter_nil_forall _ _ E c I) as F.
  apply negb_false_iff in F. apply mem_true. exact F.
Qed.

Lemma build_df2_missing batch :
  let df2 := rename [("batch", "Batch")] (DataFrame_of_records batch) in
  missing_df2_cols df2 <> [] ->
  build_df2 batch =
  Raise (ValueError "df2 (batch query) is missing expected columns"
                    (missing_df2_cols df2)).
Proof.
  intros df2 ne. unfold build_df2. fold df2.
  destruct (missing_df2_cols df2); [ congruence | reflexivity ].
Qed.

(** Line 134 leaves no column called [session_start_time]. *)
Lemma merged_frame_has_no_session_start_time sessions batch df1 df2 df :
  build_df1 sessions = Ok df1 -> build_df2 batch = Ok df2 ->
  merge_df1_df2 df1 df2 = Ok df ->
  ~ In "session_start_time" (columns df).
Proof.
  intros B1 B2 M.
  eapply merge_shared_label_lost; [ exact M | | | | | ].
  - rewrite (build_df1_columns _ B1). simpl. tauto.
  - apply (build_df2_columns _ B2). simpl. tauto.
  - simpl. intros [E | [E | []]]; discriminate.
  - simpl. discriminate.
  - simpl. discriminate.
Qed.

(* ================================================================== *)
(** * Feature engineering, row by row *)

Ltac cell_simpl :=
  repeat (rewrite cell_set_cell_same
          || rewrite cell_set_cell_other by discriminate).

Lemma dt_Ok vs ts : dt vs = Ok ts -> ts = map as_ts vs.
Proof.
  revert ts. induction vs as [ | v vs IH ]; simpl; intros ts.
  - intros [= <-]. reflexivity.
  - unfold dt in *. simpl.
    destruct v; simpl; try discriminate;
      destruct (mapM _ vs) as [ ts' | ] eqn:E; simpl; try discriminate;
      intros [= <-]; rewrite (IH ts' eq_refl); reflexivity.
Qed.


Lemma coerce_cell_datetimelike parse v :
  coerce_cell parse v = VNull \/ exists t, coerce_cell parse v = VTime t.
Proof.
  unfold coerce_cell, to_datetime_cell.
  destruct v; simpl; eauto; destruct (parse _); simpl; eauto.
Qed.

Lemma combine_map_both {A B C} (f : A -> B) (g : A -> C) (l : list A) :
  combine (map f l) (map g l) = map (fun a => (f a, g a)) l.
Proof. induction l; simpl; congruence. Qed.

Lemma setitem_rowwise c (f : Row -> value) df vals :
  vals = map f (rows df) ->
  rows (setitem c vals df) = map (fun r => set_cell c (f r) r) (rows df).
Proof. intros ->. apply rows_setitem_map. Qed.

Lemma parse_timestamps_rows parse df df' :
  parse_timestamps parse df = Ok df' ->
  rows df' = map (parsed_row parse) (rows df)
  /\ (forall c, In c (columns df') <-> In c (columns df)).
Proof.
  unfold parse_timestamps.
  destruct (getitem "session_start_time" df) as [ sst | ] eqn:G1; [ | discriminate ].
  simpl. apply getitem_Ok in G1. destruct G1 as [I1 ->].
  set (df1 := setitem "session_start_time" _ df).
  destruct (getitem "au_start_date" df1) as [ au | ] eqn:G2; [ | discriminate ].
  simpl. apply getitem_Ok in G2. destruct G2 as [I2 ->].
  intros [= <-].
  assert (R1 : rows df1 = map (fun r => set_cell "session_start_time"
                 (coerce_cell parse (cell r "session_start_time")) r) (rows df)).
  { apply setitem_rowwise. unfold to_datetime_coerce. rewrite map_map. reflexivity. }
  split.
  - rewrite (setitem_rowwise "au_start_date"
               (fun r => coerce_cell parse (cell r "au_start_date")) df1).
    + rewrite R1, map_map. reflexivity.
    + unfold to_datetime_coerce. rewrite map_map. reflexivity.
  - intros c. rewrite columns_setitem. unfold df1 in *.
    rewrite columns_setitem in *.
    destruct I2 as [I2 | E]; [ | discriminate ].
    split; [ intros [[H | ->] | ->]; assumption | auto ].
Qed.

Lemma add_month_diff_period_rows df df' :
  add_month_diff_period df = Ok df' ->
  rows df' = map month_diff_row (rows df)
  /\ (forall c, In c (columns df') <-> In c (columns df) \/ c = "month_diff_period").
Proof.
  unfold add_month_diff_period.
  destruct (getitem "session_start_time" df) as [ sst | ] eqn:G1; [ | discriminate ].
  cbn [rbind]. apply getitem_Ok in G1. destruct G1 as [I1 ->].
  destruct (dt _) as [ a | ] eqn:D1; [ | discriminate ]. cbn [rbind].
  destruct (getitem "au_start_date" df) as [ au | ] eqn:G2; [ | discriminate ].
  cbn [rbind]. apply getitem_Ok in G2. destruct G2 as [I2 ->].
  destruct (dt (map (fun r => cell r "au_start_date") (rows df)))
    as [ b | ] eqn:D2; [ | discriminate ].
  cbn [rbind].
  intros [= <-]. apply dt_Ok in D1, D2. subst a b. split.
  - apply setitem_rowwise. unfold int64_sub.
    rewrite !map_map, combine_map_both, map_map. reflexivity.
  - intros c. apply columns_setitem.
Qed.

Lemma add_year_month_date_hour_rows df df' :
  add_year_month_date_hour df = Ok df' ->
  rows df' = map key_row (rows df)
  /\ (forall c, In c (columns df') <-> In c (columns df) \/ c = "year_month_date_hour").
Proof.
  unfold add_year_month_date_hour.
  destruct (getitem "session_start_time" df) as [ sst | ] eqn:G1; [ | discriminate ].
  cbn [rbind]. apply getitem_Ok in G1. destruct G1 as [I1 ->].
  destruct (dt _) as [ a | ] eqn:D1; [ | discriminate ]. cbn [rbind].
  intros [= <-]. apply dt_Ok in D1. subst a. split.
  - apply setitem_rowwise. unfold dt_strftime. rewrite !map_map. reflexivity.
  - intros c. apply columns_setitem.
Qed.

(* ================================================================== *)
(** * Rating deduplication *)

Lemma length_mapi_from {A B} (f : nat -> A -> B) l i :
  List.length (mapi_from i f l) = List.length l.
Proof. revert i. induction l; simpl; intros; [ reflexivity | rewrite IHl; reflexivity ]. Qed.

Lemma nth_error_mapi_from {A B} (f : nat -> A -> B) l i n :
  nth_error (mapi_from i f l) n = option_map (f (i + n)) (nth_error l n).
Proof.
  revert i n. induction l as [ | a l IH ]; intros i n.
  - destruct n; reflexivity.
  - destruct n; simpl.
    + rewrite Nat.add_0_r. reflexivity.
    + rewrite IH. replace (S i + n) with (i + S n) by lia. reflexivity.
Qed.

Lemma length_groupby_transform keys col f :
  List.length (groupby_transform keys col f) = List.length col.
Proof. apply length_mapi_from. Qed.

(** The first position of a range at which [f] holds heads the filter. *)
Lemma filter_seq_head (f : nat -> bool) n : forall s i,
  s <= i < s + n -> f i = true ->
  exists j0 rest,
    filter f (seq s n) = j0 :: rest /\ s <= j0 <= i /\ f j0 = true
    /\ (forall j, s <= j < j0 -> f j = false).
Proof.
  induction n as [ | n IH ]; intros s i R F; [ lia | ].
  simpl. destruct (f s) eqn:E.
  - exists s, (filter f (seq (S s) n)). repeat split; try lia; auto.
  - assert (i <> s) by (intros ->; congruence).
    destruct (IH (S s) i) as (j0 & rest & Q & B & T & L); [ lia | assumption | ].
    exists j0, rest. repeat split; try lia; auto.
    intros j Rj. destruct (Nat.eq_dec j s) as [-> | ne]; [ assumption | ].
    apply L. lia.
Qed.


Lemma nth_mask_later p x : nth (S p) (mask_after_first x) VNull = VNull.
Proof.
  unfold mask_after_first, mapi.
  destruct (nth_error (mapi_from 0 (fun p v => if negb (Nat.eqb p 0) then VNull else v) x)
                      (S p)) eqn:E.
  - rewrite (nth_error_nth _ _ _ E).
    rewrite nth_error_mapi_from in E. destruct (nth_error x (S p)); simpl in E;
      congruence.
  - apply nth_overflow. apply nth_error_None. exact E.
Qed.

Section Dedup.

Variables keys col : list value.
Variable i : nat.
Variables k v : value.
Hypothesis key_i : nth_error keys i = Some k.
Hypothesis col_i : nth_error col i = Some v.

Let in_group (j : nat) : bool := value_eqb (nth j keys VNull) k.

Lemma dedup_in_group_i : in_group i = true.
Proof.
  unfold in_group. rewrite (nth_error_nth _ _ _ key_i).
  apply value_eqb_eq. reflexivity.
Qed.

Lemma dedup_output :
  nth_error (groupby_transform keys col mask_after_first) i =
  Some (if is_null k then VNull
        else let g := group_positions keys k in
             nth (index_of i g)
                 (mask_after_first (map (fun j => nth j col VNull) g)) VNull).
Proof.
  unfold groupby_transform, mapi. rewrite nth_error_mapi_from, col_i. simpl.
  rewrite (nth_error_nth _ _ _ key_i). reflexivity.
Qed.

(** A row whose key is null gets a null. *)
Lemma dedup_null_key :
  k = VNull ->
  nth_error (groupby_transform keys col mask_after_first) i = Some VNull.
Proof. intros E. rewrite dedup_output, E. reflexivity. Qed.


(** A row that comes after another row of its group gets a null. *)
Lemma dedup_later :
  k <> VNull ->
  (exists j, j < i /\ nth j keys VNull = k) ->
  nth_error (groupby_transform keys col mask_after_first) i = Some VNull.
Proof.
  intros nn (j & lt & E). rewrite dedup_output.
  destruct (is_null k); [ reflexivity | ]. cbv zeta.
  destruct (@filter_seq_head in_group (List.length keys) 0 i)
    as (j0 & rest & Q & B & T & L).
  { split; [ lia | apply nth_error_Some; congruence ]. }
  { apply dedup_in_group_i. }
  assert (j0 <> i) as ne.
  { intros ->. assert (in_group j = false) as F by (apply L; lia).
    unfold in_group in F. rewrite E in F.
    assert (value_eqb k k = true) by (apply value_eqb_eq; reflexivity).
    congruence. }
  unfold group_positions. fold in_group. rewrite Q. cbn [index_of].
  destruct (Nat.eqb i j0) eqn:EQ; [ apply Nat.eqb_eq in EQ; congruence | ].
  rewrite nth_mask_later. reflexivity.
Qed.

End Dedup.

Lemma nth_error_combine_Some {A B} (l1 : list A) (l2 : list B) i a b :
  nth_error l1 i = Some a -> nth_error l2 i = Some b ->
  nth_error (combine l1 l2) i = Some (a, b).
Proof.
  revert l2 i. induction l1 as [ | x l1 IH ]; intros l2 i; destruct i, l2; simpl;
    try discriminate; try congruence. apply IH.
Qed.


Lemma nth_error_cells c (rs : list Row) i r :
  nth_error rs i = Some r ->
  nth_error (map (fun r => cell r c) rs) i = Some (cell r c).
Proof. intros H. rewrite nth_error_map, H. reflexivity. Qed.

Lemma nth_cells c (rs : list Row) i r :
  nth_error rs i = Some r -> nth i (map (fun r => cell r c) rs) VNull = cell r c.
Proof. intros H. apply nth_error_nth. apply nth_error_cells. exact H. Qed.

Lemma dedup_rating_rows df df' :
  dedup_rating df = Ok df' ->
  rows df' =
    map (fun rv => set_cell "rating" (snd rv) (fst rv))
        (combine (rows df)
           (groupby_transform (map (fun r => cell r "session_id") (rows df))
                              (map (fun r => cell r "rating") (rows df))
                              mask_after_first))
  /\ (forall c, In c (columns df') <-> In c (columns df)).
Proof.
  unfold dedup_rating.
  destruct (getitem "session_id" df) as [ ks | ] eqn:G1; [ | discriminate ].
  cbn [rbind]. apply getitem_Ok in G1. destruct G1 as [I1 ->].
  destruct (getitem "rating" df) as [ rt | ] eqn:G2; [ | discriminate ].
  cbn [rbind]. apply getitem_Ok in G2. destruct G2 as [I2 ->].
  intros [= <-]. split; [ reflexivity | ].
  intros c. rewrite columns_setitem. split; [ intros [H | ->]; assumption | auto ].
Qed.


(** Rows without a [session_id] belong to no group: all of them get a null
    rating. *)
Lemma dedup_rating_null_session df df' i r r' :
  dedup_rating df = Ok df' ->
  nth_error (rows df) i = Some r -> nth_error (rows df') i = Some r' ->
  cell r "session_id" = VNull -> cell r' "rating" = VNull.
Proof.
  intros D Hr Hr' E. destruct (dedup_rating_rows _ D) as [R _]. rewrite R in Hr'.
  set (keys := map (fun r => cell r "session_id") (rows df)) in *.
  set (col := map (fun r => cell r "rating") (rows df)) in *.
  assert (Hk : nth_error keys i = Some (cell r "session_id"))
    by (unfold keys; apply nth_error_cells; exact Hr).
  assert (Hc : nth_error col i = Some (cell r "rating"))
    by (unfold col; apply nth_error_cells; exact Hr).
  pose proof (@dedup_null_key keys col i _ _ Hk Hc E) as Hv.
  rewrite nth_error_map, (nth_error_combine_Some _ _ _ Hr Hv) in Hr'.
  injection Hr' as <-. simpl. apply cell_set_cell_same.
Qed.


(* ================================================================== *)
(** * Lines 137-151 as a whole *)


(** The rows of the engineered frame: the rows of the merged frame with
    their five derived cells written, duplicates dropped. *)
Lemma feature_engineering_rows_eq parse df df' :
  feature_engineering parse df = Ok df' ->
  rows df' = drop_dups [] (map key_row (rated_rows parse df)).
Proof.
  unfold feature_engineering.
  destruct (parse_timestamps parse df) as [ d1 | ] eqn:S1; [ | discriminate ].
  cbn [rbind].
  destruct (add_month_diff_period d1) as [ d2 | ] eqn:S2; [ | discriminate ].
  cbn [rbind].
  destruct (dedup_rating d2) as [ d3 | ] eqn:S3; [ | discriminate ].
  cbn [rbind].
  destruct (add_year_month_date_hour d3) as [ d4 | ] eqn:S4; [ | discriminate ].
  cbn [rbind]. intros [= <-].
  destruct (parse_timestamps_rows _ _ S1) as [R1 _].
  destruct (add_month_diff_period_rows _ S2) as [R2 _].
  destruct (dedup_rating_rows _ S3) as [R3 _].
  destruct (add_year_month_date_hour_rows _ S4) as [R4 _].
  unfold drop_duplicates, rated_rows, dated_rows. cbn [rows].
  rewrite R4, R3, R2, R1. reflexivity.
Qed.

Lemma length_rated_rows parse df :
  List.length (rated_rows parse df) = List.length (dated_rows parse df).
Proof.
  unfold rated_rows.
  rewrite length_map, length_combine, length_groupby_transform, length_map. lia.
Qed.

(** Every row of the engineered frame comes from a row of the merged
    frame. *)
Lemma feature_engineering_rows parse df df' :
  feature_engineering parse df = Ok df' ->
  forall r', In r' (rows df') ->
  exists r0 v,
    In r0 (rows df)
    /\ r' = key_row (set_cell "rating" v (month_diff_row (parsed_row parse r0))).
Proof.
  intros F r' I. rewrite (feature_engineering_rows_eq _ _ F) in I.
  apply drop_dups_incl in I.
  apply in_map_iff in I. destruct I as (r3 & <- & I).
  unfold rated_rows, dated_rows in I.
  apply in_map_iff in I. destruct I as ([r2 v] & <- & I).
  apply in_combine_l in I.
  apply in_map_iff in I. destruct I as (r1 & <- & I).
  apply in_map_iff in I. destruct I as (r0 & <- & I).
  exists r0, v. split; [ exact I | reflexivity ].
Qed.


Lemma cell_parsed_row_sst parse r :
  cell (parsed_row parse r) "session_start_time"
  = coerce_cell parse (cell r "session_start_time").
Proof. unfold parsed_row. cell_simpl. reflexivity. Qed.








(** [month_diff_period] is an integer on every row, also on the rows whose
    timestamps are missing. *)
Lemma month_diff_period_never_null parse df df' r :
  feature_engineering parse df = Ok df' -> In r (rows df') ->
  exists z, cell r "month_diff_period" = VInt z.
Proof.
  intros F I.
  destruct (feature_engineering_rows _ _ F _ I) as (r0 & v & _ & ->).
  unfold key_row, month_diff_row. cell_simpl. eauto.
Qed.


(** The timestamp columns hold timestamps or nulls, nothing else, and the
    key is the formatted start time. *)
Lemma engineered_start_time parse df df' r :
  feature_engineering parse df = Ok df' -> In r (rows df') ->
  (cell r "session_start_time" = VNull /\ cell r "year_month_date_hour" = VNull)
  \/ exists t, cell r "session_start_time" = VTime t
               /\ cell r "year_month_date_hour" = VStr (strftime_key t).
Proof.
  intros F I.
  destruct (feature_engineering_rows _ _ F _ I) as (r0 & v & _ & ->).
  unfold key_row, month_diff_row. cell_simpl. rewrite cell_parsed_row_sst.
  destruct (coerce_cell_datetimelike parse (cell r0 "session_start_time"))
    as [-> | [t ->]]; simpl; eauto.
Qed.

(* ================================================================== *)
(** * Rows of a merge *)

Lemma keys_match_iff on l r :
  keys_match on l r = true <-> forall k, In k on -> cell l k = cell r k.
Proof.
  unfold keys_match. rewrite forallb_forall.
  split; intros H k I; [ apply value_eqb_eq | apply value_eqb_eq ]; auto.
Qed.

Lemma in_inner_rows on L R row :
  In row (inner_rows on L R) <->
  exists l r, In l (rows L) /\ In r (rows R) /\ keys_match on l r = true
              /\ row = join_row on (columns L) (columns R) l r.
Proof.
  unfold inner_rows. rewrite in_flat_map. split.
  - intros (l & Il & I). apply in_map_iff in I. destruct I as (r & <- & I).
    apply filter_In in I. destruct I as [Ir K]. exists l, r. auto.
  - intros (l & r & Il & Ir & K & ->). exists l. split; [ exact Il | ].
    apply in_map. apply filter_In. auto.
Qed.

Lemma lookup_right_part_key on lcols r k :
  In k on -> last_char k <> Some "y"%char ->
  lookup k (right_part on lcols r) = None.
Proof.
  intros I L. unfold right_part. apply lookup_relabel_absent.
  intros H. apply in_map_iff in H. destruct H as (c & E & Ic).
  apply (rlabel_only _ _ _ L) in E. subst c.
  apply in_map_iff in Ic. destruct Ic as ([c v] & E & Ic). simpl in E. subst c.
  apply filter_In in Ic. destruct Ic as [_ N]. simpl in N.
  unfold nonkey in N. apply mem_true in I. rewrite I in N. discriminate.
Qed.

(** The key cells of a joined row are those of its left row. *)
Lemma cell_join_row_key on lcols rcols l r k :
  In k on -> last_char k <> Some "x"%char -> last_char k <> Some "y"%char ->
  cell (join_row on lcols rcols l r) k = cell l k.
Proof.
  intros I Lx Ly. unfold cell, join_row. rewrite lookup_app.
  rewrite lookup_relabel_fixed.
  - destruct (lookup k l); [ reflexivity | ].
    rewrite lookup_right_part_key by assumption. reflexivity.
  - apply llabel_key. exact I.
  - intros c. apply llabel_only. exact Lx.
Qed.

(** C2.  Every row of the inner merge of line 134 joins a row of [df1]
    with a row of [df2] that carry its [(session_id, Batch)] pair, so the
    pair occurs in both tables; every pair of rows that agree on the pair
    is joined; and a row of either table whose pair does not occur in the
    other table leaves no row behind. *)
Theorem inner_merge_pairs_occur_in_both (df1 df2 df : DataFrame) :
  merge_df1_df2 df1 df2 = Ok df ->
  (forall row, In row (rows df) ->
     exists l r,
       In l (rows df1) /\ In r (rows df2)
       /\ row = join_row ["session_id"; "Batch"] (columns df1) (columns df2) l r
       /\ cell row "session_id" = cell l "session_id"
       /\ cell row "Batch" = cell l "Batch"
       /\ cell row "session_id" = cell r "session_id"
       /\ cell row "Batch" = cell r "Batch")
  /\ (forall l r, In l (rows df1) -> In r (rows df2) ->
        cell l "session_id" = cell r "session_id" ->
        cell l "Batch" = cell r "Batch" ->
        In (join_row ["session_id"; "Batch"] (columns df1) (columns df2) l r)
           (rows df))
  /\ (forall l, In l (rows df1) ->
        (forall r, In r (rows df2) ->
           ~ (cell r "session_id" = cell l "session_id"
              /\ cell r "Batch" = cell l "Batch")) ->
        forall row, In row (rows df) ->
          ~ (cell row "session_id" = cell l "session_id"
             /\ cell row "Batch" = cell l "Batch"))
  /\ (forall r, In r (rows df2) ->
        (forall l, In l (rows df1) ->
           ~ (cell l "session_id" = cell r "session_id"
              /\ cell l "Batch" = cell r "Batch")) ->
        forall row, In row (rows df) ->
          ~ (cell row "session_id" = cell r "session_id"
             /\ cell row "Batch" = cell r "Batch")).
Proof.
  intros M. destruct (merge_Ok _ _ _ _ M) as (_ & R & _). simpl in R.
  assert (P : forall row, In row (rows df) ->
     exists l r,
       In l (rows df1) /\ In r (rows df2)
       /\ row = join_row ["session_id"; "Batch"] (columns df1) (columns df2) l r
       /\ cell row "session_id" = cell l "session_id"
       /\ cell row "Batch" = cell l "Batch"
       /\ cell row "session_id" = cell r "session_id"
       /\ cell row "Batch" = cell r "Batch").
  { intros row I. rewrite R in I. apply in_inner_rows in I.
    destruct I as (l & r & Il & Ir & K & ->). exists l, r.
    pose proof (proj1 (keys_match_iff _ _ _) K) as Q.
    assert (S1 : cell (join_row ["session_id"; "Batch"] (columns df1) (columns df2) l r)
                      "session_id" = cell l "session_id")
      by (apply cell_join_row_key; simpl; auto; discriminate).
    assert (S2 : cell (join_row ["session_id"; "Batch"] (columns df1) (columns df2) l r)
                      "Batch" = cell l "Batch")
      by (apply cell_join_row_key; simpl; auto; discriminate).
    repeat split; auto.
    - rewrite S1. apply Q. simpl. auto.
    - rewrite S2. apply Q. simpl. auto. }
  split; [ exact P | ]. split; [ | split ].
  - intros l r Il Ir E1 E2. rewrite R. apply in_inner_rows. exists l, r.
    repeat split; auto. apply keys_match_iff. simpl.
    intros k [<- | [<- | []]]; assumption.
  - intros l Il none row I [E1 E2].
    destruct (P row I) as (l' & r' & _ & Ir' & _ & A1 & A2 & B1 & B2).
    apply (none r' Ir'). split; congruence.
  - intros r Ir none row I [E1 E2].
    destruct (P row I) as (l' & r' & Il' & _ & _ & A1 & A2 & B1 & B2).
    apply (none l' Il'). split; congruence.
Qed.

Lemma inner_merge_pairs_occur_in_both_witness :
  exists df1 df2 df row,
    build_df1 two_sessions = Ok df1 /\ build_df2 two_batches = Ok df2
    /\ merge_df1_df2 df1 df2 = Ok df
    /\ rows df = [row]
    /\ cell row "session_id" = VInt 1 /\ cell row "Batch" = VStr "B1"
    /\ exists l r, In l (rows df1) /\ In r (rows df2)
                   /\ cell row "session_id" = cell r "session_id"
                   /\ cell row "Batch" = cell r "Batch".
Proof.
  eexists. eexists. eexists. eexists.
  split; [ reflexivity | ]. split; [ reflexivity | ].
  split; [ reflexivity | ]. split; [ reflexivity | ].
  split; [ reflexivity | ]. split; [ reflexivity | ].
  match goal with
  | |- exists l r, In l (rows ?a) /\ In r (rows ?b) /\ cell ?row _ = _ /\ _ =>
      destruct (@inner_merge_pairs_occur_in_both a b _ eq_refl) as [P _];
      destruct (P row (or_introl eq_refl)) as (l & r & Il & Ir & _ & _ & _ & E1 & E2);
      exists l, r; repeat split; assumption
  end.
Defined.

(* ================================================================== *)
(** * The outer merge, cell by cell *)




Section MergedCells.

Variable on : list string.
Variables lcols rcols : list string.

Let ll := map (llabel on rcols) lcols.
Let rl := map (rlabel on lcols) (filter (nonkey on) rcols).

Hypothesis labels_distinct : NoDup (ll ++ rl).




Lemma map_fst_relabel f (r : Row) : map fst (relabel f r) = map f (map fst r).
Proof. unfold relabel. rewrite !map_map. reflexivity. Qed.






Variables l r : Row.
Hypothesis l_labels : map fst l = lcols.
Hypothesis r_labels : map fst r = rcols.







End MergedCells.







(* ================================================================== *)
(** * Sessions without a start time in the outer merge *)




(* ================================================================== *)
(** * The slot table (lines 154-157) *)










(* ================================================================== *)
(** * The pipeline as the script composes it *)

(** Line 137 needs a column called [session_start_time]. *)
Lemma feature_engineering_needs_session_start_time parse df :
  ~ In "session_start_time" (columns df) ->
  feature_engineering parse df = Raise (KeyError ["session_start_time"]).
Proof.
  intros A. unfold feature_engineering, parse_timestamps.
  rewrite getitem_absent by exact A. reflexivity.
Qed.

(** C6.  Line 121 keeps [session_start_time] in [df1] and line 128
    requires it in [df2]; it is no merge key, so line 134 renames both
    copies and line 137 finds no column of that name.  Whenever the two
    tables are built and merged, the pipeline raises [KeyError] there,
    whatever the timestamps hold. *)
Theorem join_pipeline_raises_on_session_start_time
  (parse : value -> option Timestamp) (sessions batch slots : list Row)
  (df1 df2 df : DataFrame) :
  build_df1 sessions = Ok df1 ->
  build_df2 batch = Ok df2 ->
  merge_df1_df2 df1 df2 = Ok df ->
  join_pipeline parse sessions batch slots = Raise (KeyError ["session_start_time"]).
Proof.
  intros B1 B2 M. unfold join_pipeline. rewrite B1, B2. cbn [rbind].
  rewrite M. cbn [rbind].
  rewrite feature_engineering_needs_session_start_time; [ reflexivity | ].
  eapply merged_frame_has_no_session_start_time; eassumption.
Qed.

Lemma join_pipeline_raises_on_session_start_time_witness :
  join_pipeline iso_parse session_with_bad_start_time [ Sample.batch_row 1 "B1" ]
                [ Sample.slot (VStr "2024-03-05T08:00") "Asha" ]
  = Raise (KeyError ["session_start_time"]).
Proof.
  eapply (@join_pipeline_raises_on_session_start_time iso_parse
            session_with_bad_start_time [ Sample.batch_row 1 "B1" ]
            [ Sample.slot (VStr "2024-03-05T08:00") "Asha" ]);
    reflexivity.
Defined.

(** The pipeline returns no tables on any input. *)
Lemma join_pipeline_never_returns parse sessions batch slots :
  exists e, join_pipeline parse sessions batch slots = Raise e.
Proof.
  destruct (build_df1 sessions) as [ df1 | e ] eqn:B1.
  - destruct (build_df2 batch) as [ df2 | e ] eqn:B2.
    + destruct (merge_df1_df2 df1 df2) as [ df | e ] eqn:M.
      * unfold join_pipeline. rewrite B1, B2. cbn [rbind]. rewrite M. cbn [rbind].
        rewrite feature_engineering_needs_session_start_time;
          [ eexists; reflexivity | ].
        eapply merged_frame_has_no_session_start_time; eassumption.
      * unfold join_pipeline. rewrite B1, B2. cbn [rbind]. rewrite M.
        eexists. reflexivity.
    + unfold join_pipeline. rewrite B1, B2. eexists. reflexivity.
  - unfold join_pipeline. rewrite B1. eexists. reflexivity.
Qed.

(** Hence no run writes to a worksheet, and every run ends with status 1. *)
Lemma main_never_publishes parse w env :
  filter is_write (fst (main parse w env)) = []
  /\ exit_status (main parse w env) = 1.
Proof.
  rewrite main_unfold.
  pose proof (startup_no_write w env) as S0.
  pose proof (fetch_all_no_write w env) as S1.
  destruct (startup w env) as [t0 [tok | e0]]; simpl in *; [ | auto ].
  destruct (fetch_all w env) as [t1 [[[s b] sl] | e1]]; simpl in *.
  - assert (exists e, (s0 <- json s ;; b0 <- json b ;; sl0 <- json sl ;;
                       join_pipeline parse s0 b0 sl0)%result = Raise e) as [e ->].
    { destruct (json s) as [ s0 | ]; [ | eexists; reflexivity ].
      destruct (json b) as [ b0 | ]; [ | eexists; reflexivity ].
      destruct (json sl) as [ sl0 | ]; [ | eexists; reflexivity ].
      cbn [rbind]. apply join_pipeline_never_returns. }
    unfold exit_status. simpl. rewrite !filter_app, S0, S1. auto.
  - unfold exit_status. simpl. rewrite !filter_app, S0, S1. auto.
Qed.

(** With the timestamps coerced, an unparseable start time turns
    [month_diff_period] into an integer built from [iNaT], not into a
    null. *)
Lemma month_diff_period_of_unparseable_start_time :
  exists df r,
    feature_engineering iso_parse
      (Sample.joined [ Sample.joined_row 1 (VInt 5) (VStr "2024-13-45T08:00")
                                         (VStr "2024-01-20T23:00") ]) = Ok df
    /\ rows df = [r]
    /\ cell r "session_start_time" = VNull
    /\ cell r "year_month_date_hour" = VNull
    /\ cell r "month_diff_period" = VInt (2 ^ 63 - 648).
Proof.
  eexists. eexists. split; [ reflexivity | ].
  split; [ reflexivity | ]. split; [ reflexivity | ].
  split; reflexivity.
Qed.

(* ================================================================== *)
(** * Validation of the batch table *)

(** A column other than [Batch] that no batch record carries is reported
    missing. *)
Lemma absent_column_is_missing batch c :
  In c required_df2_cols -> c <> "Batch" ->
  (forall rec, In rec batch -> ~ In c (map fst rec)) ->
  In c (missing_df2_cols (df2_of batch)).
Proof.
  intros R ne A. unfold missing_df2_cols. apply filter_In. split; [ exact R | ].
  apply negb_true_iff, mem_false. intros I.
  apply columns_rename in I. destruct I as (c0 & I & E).
  simpl in E. destruct (string_dec c0 "batch"); [ congruence | subst c0 ].
  apply columns_of_records in I. destruct I as (rec & Ir & Ic).
  exact (A rec Ir Ic).
Qed.

(** C8, as amended.  When the batch dataset lacks a required column the
    run, once the fetches have succeeded, ends with status 1 without a
    single clear or write of a worksheet.  The exception is the validation
    error that names the missing columns if the sessions dataset has the
    fourteen columns that line 116 selects; otherwise line 116 has already
    raised. *)
Theorem missing_batch_column_aborts_before_publish
  (parse : value -> option Timestamp) (w : World) (env : Env) (tok : string)
  (sessions batch slots : list Row) :
  snd (startup w env) = Ok tok ->
  snd (fetch_all w env) = Ok (Some sessions, Some batch, Some slots) ->
  missing_df2_cols (df2_of batch) <> [] ->
  exit_status (main parse w env) = 1
  /\ filter is_write (fst (main parse w env)) = []
  /\ (forall df1, build_df1 sessions = Ok df1 ->
        snd (main parse w env) = Raise (validation_error batch))
  /\ (forall e, build_df1 sessions = Raise e -> snd (main parse w env) = Raise e).
Proof.
  intros S F Miss.
  pose proof (startup_no_write w env) as S0.
  pose proof (fetch_all_no_write w env) as S1.
  assert (J : join_pipeline parse sessions batch slots =
              match build_df1 sessions with
              | Ok _ => Raise (validation_error batch)
              | Raise e => Raise e
              end).
  { unfold join_pipeline. destruct (build_df1 sessions); [ | reflexivity ].
    cbn [rbind]. rewrite (build_df2_missing batch Miss). reflexivity. }
  rewrite main_unfold.
  destruct (startup w env) as [t0 [tok' | e0]]; simpl in S; [ | discriminate ].
  destruct (fetch_all w env) as [t1 [res | e1]]; simpl in F; [ | discriminate ].
  injection F as ->. cbn [json rbind]. rewrite J. simpl in S0, S1.
  destruct (build_df1 sessions) as [ df1 | e ]; unfold exit_status; simpl;
    rewrite !filter_app, S0, S1; repeat split; auto; try discriminate;
    intros; congruence.
Qed.

Lemma missing_batch_column_aborts_before_publish_witness :
  snd (main iso_parse world_without_mentor Sample.env)
  = Raise (ValueError "df2 (batch query) is missing expected columns" ["mentor_name"])
  /\ filter is_write (fst (main iso_parse world_without_mentor Sample.env)) = []
  /\ exit_status (main iso_parse world_without_mentor Sample.env) = 1.
Proof.
  destruct (@missing_batch_column_aborts_before_publish iso_parse
              world_without_mentor Sample.env "token"
              one_session batch_without_mentor [])
    as (X & W & V & _).
  - reflexivity.
  - reflexivity.
  - discriminate.
  - split; [ | split; [ exact W | exact X ] ]. eapply V. reflexivity.
Defined.

(** C8 as stated fails: when the sessions dataset is empty as well, the
    run ends on the [KeyError] of line 116 and the validation of line 131
    is not reached. *)
Lemma missing_batch_column_without_validation_error :
  snd (startup world_without_sessions Sample.env) = Ok "token"
  /\ snd (fetch_all world_without_sessions Sample.env)
     = Ok (Some [], Some batch_without_mentor, Some [])
  /\ missing_df2_cols (df2_of batch_without_mentor) = ["mentor_name"]
  /\ snd (main iso_parse world_without_sessions Sample.env)
     = Raise (KeyError df1_columns)
  /\ snd (main iso_parse world_without_sessions Sample.env)
     <> Raise (validation_error batch_without_mentor).
Proof.
  split; [ reflexivity | ]. split; [ reflexivity | ]. split; [ reflexivity | ].
  split; [ reflexivity | ]. discriminate.
Qed.

(* ================================================================== *)
(** * Configuration *)

(** The four values the start-up checks: without one of them the script
    stops before any request, with status 1. *)
Lemma checked_configuration_stops_at_once parse w env :
  METABASE_URL env = None \/ truthy (ASHRITHA_SECRET_KEY env) = false
  \/ truthy (SERVICE_ACCOUNT_JSON env) = false
  \/ truthy (TA_SHEET_ACCESS_KEY env) = false ->
  fst (main parse w env) = [] /\ exit_status (main parse w env) = 1.
Proof.
  intros H. rewrite main_unfold. unfold startup.
  destruct (METABASE_URL env); [ | split; reflexivity ].
  destruct (truthy (ASHRITHA_SECRET_KEY env)); simpl; [ | split; reflexivity ].
  destruct (truthy (SERVICE_ACCOUNT_JSON env)); simpl; [ | split; reflexivity ].
  destruct (truthy (TA_SHEET_ACCESS_KEY env)); simpl; [ | split; reflexivity ].
  destruct H as [H | [H | [H | H]]]; discriminate.
Qed.

(** C9.  The query references are not among the values the start-up
    checks.  With [TA_SESSIONS_QUERY] unset the script logs in, posts the
    missing reference five times with four pauses of 15 seconds, fetches
    the two other datasets, and only then ends with the last failure. *)
Theorem unset_query_reference_is_retried :
  forall sessions batch slots,
    main iso_parse (Sample.world sessions batch slots)
         Sample.env_without_sessions_query
    = ( EvLogin "https://metabase.example/api/session"
          :: five_attempts None
          ++ [ EvPost (Some "card/6570") 1; EvPost (Some "card/6213") 1 ],
        Raise MissingSchema ).
Proof. intros sessions batch slots. reflexivity. Qed.

(** The same for any world: a fetch of an unset reference is five failed
    attempts. *)
Lemma fetch_of_unset_reference w :
  fetch_with_retry w None 5 15 = (five_attempts None, Raise MissingSchema).
Proof. reflexivity. Qed.

(* ================================================================== *)
(** * Well-formed frames

    The frames of the script are well formed: [pd.DataFrame] builds them
    so, and writing a column or dropping duplicates keeps them so. *)

Lemma NoDup_distinct seen cs : NoDup (distinct seen cs).
Proof.
  revert seen. induction cs as [ | c cs IH ]; simpl; intros seen; [ constructor | ].
  destruct (mem c seen); [ apply IH | ].
  constructor; [ | apply IH ].
  rewrite in_distinct. simpl. tauto.
Qed.

Lemma map_fst_project cs r : map fst (project cs r) = cs.
Proof. unfold project. rewrite map_map. simpl. apply map_id. Qed.

Lemma well_formed_of_records recs : well_formed (DataFrame_of_records recs).
Proof.
  split; simpl.
  - apply NoDup_distinct.
  - intros r I. apply in_map_iff in I. destruct I as (rec & <- & _).
    apply map_fst_project.
Qed.

Lemma map_fst_set_cell_bound c v (r : Row) :
  In c (map fst r) -> map fst (set_cell c v r) = map fst r.
Proof.
  induction r as [ | [c0 v0] r IH ]; simpl; [ tauto | ].
  destruct (string_dec c c0) as [-> | ne]; [ reflexivity | ].
  intros [E | I]; [ congruence | ]. simpl. rewrite IH by exact I. reflexivity.
Qed.

Lemma map_fst_set_cell_new c v (r : Row) :
  ~ In c (map fst r) -> map fst (set_cell c v r) = map fst r ++ [c].
Proof.
  induction r as [ | [c0 v0] r IH ]; simpl; [ reflexivity | ].
  intros N. destruct (string_dec c c0) as [-> | ne]; [ tauto | ].
  simpl. rewrite IH by tauto. reflexivity.
Qed.

Lemma well_formed_setitem c vals df :
  well_formed df -> well_formed (setitem c vals df).
Proof.
  intros [ND W]. unfold setitem. destruct (mem c (columns df)) eqn:E; split; simpl.
  - exact ND.
  - intros r I. apply in_map_iff in I. destruct I as ([r0 v] & <- & I).
    apply in_combine_l in I. simpl. rewrite map_fst_set_cell_bound.
    + apply W. exact I.
    + rewrite (W r0 I). apply mem_true. exact E.
  - apply mem_false in E. clear W. induction (columns df) as [ | x xs IH ]; simpl.
    + constructor; [ simpl; tauto | constructor ].
    + inversion ND as [ | ? ? notin nd ]; subst. constructor.
      * rewrite in_app_iff. simpl. intros [H | [H | []]]; [ tauto | ].
        apply E. left. congruence.
      * apply IH; [ exact nd | ]. intros H. apply E. right. exact H.
  - intros r I. apply in_map_iff in I. destruct I as ([r0 v] & <- & I).
    apply in_combine_l in I. simpl. rewrite map_fst_set_cell_new.
    + rewrite (W r0 I). reflexivity.
    + rewrite (W r0 I). apply mem_false. exact E.
Qed.

Lemma well_formed_drop_duplicates df :
  well_formed df -> well_formed (drop_duplicates df).
Proof.
  intros [ND W]. split; simpl; [ exact ND | ].
  intros r I. apply W. eapply drop_dups_incl. exact I.
Qed.

Lemma well_formed_rename m df :
  well_formed df -> NoDup (columns (rename m df)) -> well_formed (rename m df).
Proof.
  intros [_ W] ND. split; [ exact ND | ]. simpl.
  intros r I. apply in_map_iff in I. destruct I as (r0 & <- & I).
  unfold relabel. rewrite map_map. simpl. rewrite <- (W r0 I), map_map. reflexivity.
Qed.

Ltac step_by_step :=
  repeat match goal with
         | |- (_ <- ?m ;; _)%result = Ok _ -> _ =>
             destruct m; cbn [rbind]; [ | discriminate ]
         end;
  intros [= <-].

Lemma well_formed_parse_timestamps parse df d :
  well_formed df -> parse_timestamps parse df = Ok d -> well_formed d.
Proof.
  intros W. unfold parse_timestamps. step_by_step.
  repeat apply well_formed_setitem. exact W.
Qed.

Lemma well_formed_add_month_diff_period df d :
  well_formed df -> add_month_diff_period df = Ok d -> well_formed d.
Proof.
  intros W. unfold add_month_diff_period. step_by_step.
  apply well_formed_setitem. exact W.
Qed.

Lemma well_formed_dedup_rating df d :
  well_formed df -> dedup_rating df = Ok d -> well_formed d.
Proof.
  intros W. unfold dedup_rating. step_by_step.
  apply well_formed_setitem. exact W.
Qed.

Lemma well_formed_add_year_month_date_hour df d :
  well_formed df -> add_year_month_date_hour df = Ok d -> well_formed d.
Proof.
  intros W. unfold add_year_month_date_hour. step_by_step.
  apply well_formed_setitem. exact W.
Qed.

(** Lines 137-151 keep a well-formed frame well formed. *)
Lemma well_formed_feature_engineering parse df df' :
  well_formed df -> feature_engineering parse df = Ok df' -> well_formed df'.
Proof.
  intros W. unfold feature_engineering.
  destruct (parse_timestamps parse df) as [ d1 | ] eqn:S1; [ | discriminate ].
  cbn [rbind].
  destruct (add_month_diff_period d1) as [ d2 | ] eqn:S2; [ | discriminate ].
  cbn [rbind].
  destruct (dedup_rating d2) as [ d3 | ] eqn:S3; [ | discriminate ].
  cbn [rbind].
  destruct (add_year_month_date_hour d3) as [ d4 | ] eqn:S4; [ | discriminate ].
  cbn [rbind]. intros [= <-]. apply well_formed_drop_duplicates.
  eapply well_formed_add_year_month_date_hour; [ | exact S4 ].
  eapply well_formed_dedup_rating; [ | exact S3 ].
  eapply well_formed_add_month_diff_period; [ | exact S2 ].
  eapply well_formed_parse_timestamps; [ | exact S1 ]. exact W.
Qed.

(** Lines 154-157 give a well-formed frame, unless the rename of [ta]
    collides with a [mentor_name] column that is already there. *)
Lemma well_formed_build_df3 parse slots df3 :
  build_df3 parse slots = Ok df3 -> NoDup (columns df3) -> well_formed df3.
Proof.
  unfold build_df3. step_by_step.
  intros ND. apply well_formed_rename; [ | exact ND ].
  repeat apply well_formed_setitem. apply well_formed_of_records.
Qed.

(** The key of the specification's example. *)
Example strftime_key_of_july_session :
  option_map strftime_key (iso_parse (VStr "2024-07-09T14:32:10"))
  = Some "2024-07-09-14".
Proof. reflexivity. Qed.

(* ================================================================== *)
(** * Ratings in the engineered frame *)

Lemma drop_dups_split seen rs : forall pre r post,
  drop_dups seen rs = pre ++ r :: post ->
  exists pre0 post0, rs = pre0 ++ r :: post0 /\ incl pre pre0.
Proof.
  revert seen. induction rs as [ | r0 rs IH ]; intros seen pre r post; simpl.
  - destruct pre; discriminate.
  - destruct (in_dec Row_eq_dec r0 seen).
    + intros E. destruct (IH _ _ _ _ E) as (p0 & q0 & -> & I).
      exists (r0 :: p0), q0. split; [ reflexivity | ].
      intros x Hx. right. apply I. exact Hx.
    + destruct pre as [ | x pre ]; simpl; intros [= -> E].
      * exists [], rs. split; [ reflexivity | ]. intros x [].
      * destruct (IH _ _ _ _ E) as (p0 & q0 & -> & I).
        exists (x :: p0), q0. split; [ reflexivity | ].
        intros y [<- | Hy]; [ left; reflexivity | right; apply I; exact Hy ].
Qed.

Lemma nth_error_combine_inv {A B} (l1 : list A) (l2 : list B) i a b :
  nth_error (combine l1 l2) i = Some (a, b) ->
  nth_error l1 i = Some a /\ nth_error l2 i = Some b.
Proof.
  revert l2 i. induction l1 as [ | x l1 IH ]; intros l2 i; destruct l2, i; simpl;
    try discriminate.
  - intros [= -> ->]. auto.
  - apply IH.
Qed.

Lemma nth_error_rated_rows parse df i r :
  nth_error (rated_rows parse df) i = Some r ->
  exists r2 v,
    nth_error (dated_rows parse df) i = Some r2
    /\ nth_error (groupby_transform
                   (map (fun r => cell r "session_id") (dated_rows parse df))
                   (map (fun r => cell r "rating") (dated_rows parse df))
                   mask_after_first) i = Some v
    /\ r = set_cell "rating" v r2.
Proof.
  unfold rated_rows. rewrite nth_error_map.
  destruct (nth_error (combine _ _) i) as [ [r2 v] | ] eqn:E; [ | discriminate ].
  intros [= <-]. apply nth_error_combine_inv in E. destruct E as [E1 E2].
  exists r2, v. auto.
Qed.

(** In the frame lines 137-151 produce, a row that comes after another row
    of the same session has no rating: dropping duplicate rows does not
    undo the deduplication. *)
Lemma later_rows_of_a_session_have_no_rating parse df df' pre r post :
  feature_engineering parse df = Ok df' ->
  rows df' = pre ++ r :: post ->
  cell r "session_id" <> VNull ->
  (exists r1, In r1 pre /\ cell r1 "session_id" = cell r "session_id") ->
  cell r "rating" = VNull.
Proof.
  intros F S nn (r1 & I1 & E1).
  rewrite (feature_engineering_rows_eq _ _ F) in S.
  apply drop_dups_split in S. destruct S as (pre0 & post0 & S & inc).
  apply map_eq_app in S. destruct S as (p3 & rest & Q & Mp & Mr).
  apply map_eq_cons in Mr. destruct Mr as (r3 & q3 & -> & K3 & _).
  apply inc in I1. rewrite <- Mp in I1. apply in_map_iff in I1.
  destruct I1 as (x & Kx & Ix).
  apply In_nth_error in Ix. destruct Ix as [j Hj].
  assert (Lj : j < List.length p3) by (apply nth_error_Some; congruence).
  assert (Hi : nth_error (rated_rows parse df) (List.length p3) = Some r3).
  { rewrite Q, nth_error_app2 by lia. rewrite Nat.sub_diag. reflexivity. }
  assert (Hj' : nth_error (rated_rows parse df) j = Some x).
  { rewrite Q, nth_error_app1 by exact Lj. exact Hj. }
  destruct (nth_error_rated_rows _ _ _ Hi) as (r2 & v & D2 & G2 & ->).
  destruct (nth_error_rated_rows _ _ _ Hj') as (x2 & vx & Dx & _ & ->).
  subst r r1. unfold key_row in *. revert nn E1. cell_simpl. intros nn E1.
  rewrite (@dedup_later
             (map (fun r => cell r "session_id") (dated_rows parse df))
             (map (fun r => cell r "rating") (dated_rows parse df))
             (List.length p3) (cell r2 "session_id") (cell r2 "rating")) in G2.
  - congruence.
  - apply nth_error_cells. exact D2.
  - apply nth_error_cells. exact D2.
  - exact nn.
  - exists j. split; [ exact Lj | ]. rewrite (nth_cells _ _ _ Dx). exact E1.
Qed.

(* ================================================================== *)
(** * The publishing loop (lines 79-95) *)

Lemma clear_and_write_cases w title df a :
  clear_and_write w title df a =
  match clear w title a with
  | Raise e => ([EvClear title], Raise e)
  | Ok _ => ([EvClear title; EvWrite title df], set_with_dataframe w title df a)
  end.
Proof.
  unfold clear_and_write, mbind, emit, lift.
  destruct (clear w title a); [ | reflexivity ].
  destruct (set_with_dataframe w title df a); reflexivity.
Qed.

Lemma update_attempts_step w title df a rest :
  update_attempts w title df (a :: rest) =
  match snd (clear_and_write w title df a) with
  | Ok _ => (fst (clear_and_write w title df a), Ok tt)
  | Raise e =>
      if Nat.ltb a 5
      then (fst (clear_and_write w title df a)
              ++ EvSleep 20 :: fst (update_attempts w title df rest),
            snd (update_attempts w title df rest))
      else (fst (clear_and_write w title df a), Raise e)
  end.
Proof.
  cbn [update_attempts].
  destruct (clear_and_write w title df a) as [t [u | e]]; [ reflexivity | ].
  cbn [fst snd]. destruct (Nat.ltb a 5); [ | reflexivity ].
  unfold mbind, emit.
  destruct (update_attempts w title df rest) as [t' r]. reflexivity.
Qed.

Lemma count_app p t1 t2 : count p (t1 ++ t2) = count p t1 + count p t2.
Proof. unfold count. rewrite filter_app, length_app. reflexivity. Qed.

Lemma count_clear_and_write w title df a :
  count is_clear (fst (clear_and_write w title df a)) = 1
  /\ count is_update (fst (clear_and_write w title df a)) <= 1
  /\ count is_sleep (fst (clear_and_write w title df a)) = 0
  /\ forall ev, In ev (fst (clear_and_write w title df a)) ->
       ev = EvClear title \/ ev = EvWrite title df.
Proof.
  rewrite clear_and_write_cases. destruct (clear w title a); cbn;
    repeat split; auto; intros ev H; intuition.
Qed.

Lemma update_attempts_bounds w title df attempts :
  count is_clear (fst (update_attempts w title df attempts)) <= List.length attempts
  /\ count is_update (fst (update_attempts w title df attempts))
     <= count is_clear (fst (update_attempts w title df attempts))
  /\ forall ev, In ev (fst (update_attempts w title df attempts)) ->
       ev = EvClear title \/ ev = EvWrite title df \/ ev = EvSleep 20.
Proof.
  induction attempts as [ | a rest IH ].
  - cbn. repeat split; auto. intros ev [].
  - rewrite update_attempts_step.
    destruct (count_clear_and_write w title df a) as (C & U & _ & E).
    destruct IH as (IC & IU & IE).
    destruct (snd (clear_and_write w title df a)) as [ u | e ].
    + cbn [fst List.length]. repeat split; try lia.
      intros ev I. destruct (E ev I); auto.
    + destruct (Nat.ltb a 5); cbn [fst List.length].
      * rewrite !count_app.
        change (EvSleep 20 :: fst (update_attempts w title df rest))
          with ([EvSleep 20] ++ fst (update_attempts w title df rest)).
        rewrite !count_app. cbn [count filter is_clear is_update List.length].
        repeat split; try lia.
        intros ev I. apply in_app_or in I. destruct I as [I | I].
        -- destruct (E ev I); auto.
        -- apply in_app_or in I. destruct I as [[<- | []] | I]; auto.
      * repeat split; try lia. intros ev I. destruct (E ev I); auto.
Qed.

(** X1.  [safe_clear_and_update] clears the worksheet at most five times,
    never writes more often than it clears, pauses 20 seconds and nothing
    else, and touches no worksheet but its own and no frame but the one it
    was given. *)
Theorem safe_clear_and_update_bounds (w : World) (title : string) (df : DataFrame) :
  count is_clear (fst (safe_clear_and_update w title df)) <= 5
  /\ count is_update (fst (safe_clear_and_update w title df))
     <= count is_clear (fst (safe_clear_and_update w title df))
  /\ forall ev, In ev (fst (safe_clear_and_update w title df)) ->
       ev = EvClear title \/ ev = EvWrite title df \/ ev = EvSleep 20.
Proof. exact (update_attempts_bounds w title df (seq 1 5)). Qed.

Lemma update_attempts_first_success w title df : forall n a k,
  a + n = 6 -> a <= k < a + n ->
  (forall j, a <= j < k -> exists e, snd (clear_and_write w title df j) = Raise e) ->
  snd (clear_and_write w title df k) = Ok tt ->
  snd (update_attempts w title df (seq a n)) = Ok tt
  /\ count is_clear (fst (update_attempts w title df (seq a n))) = S (k - a)
  /\ count is_sleep (fst (update_attempts w title df (seq a n))) = k - a.
Proof.
  induction n as [ | n IH ]; intros a k Sum R F K; [ lia | ].
  cbn [seq]. rewrite update_attempts_step.
  destruct (count_clear_and_write w title df a) as (C & _ & Z & _).
  destruct (Nat.eq_dec a k) as [-> | ne].
  - rewrite K. cbn [fst snd]. rewrite C, Z. repeat split; lia.
  - destruct (F a) as [e Fa]; [ lia | ]. rewrite Fa.
    assert (L : Nat.ltb a 5 = true) by (apply Nat.ltb_lt; lia).
    rewrite L. cbn [fst snd].
    destruct (IH (S a) k) as (R1 & R2 & R3); [ lia | lia | | exact K | ].
    { intros j Hj. apply F. lia. }
    change (EvSleep 20 :: fst (update_attempts w title df (seq (S a) n)))
      with ([EvSleep 20] ++ fst (update_attempts w title df (seq (S a) n))).
    rewrite !count_app, C, Z, R2, R3. cbn. split; [ exact R1 | split; lia ].
Qed.

Lemma update_attempts_all_fail w title df : forall n a,
  a + n = 6 -> 1 <= n ->
  (forall j, a <= j <= 5 -> exists e, snd (clear_and_write w title df j) = Raise e) ->
  snd (update_attempts w title df (seq a n)) = snd (clear_and_write w title df 5)
  /\ count is_clear (fst (update_attempts w title df (seq a n))) = n
  /\ count is_sleep (fst (update_attempts w title df (seq a n))) = n - 1.
Proof.
  induction n as [ | n IH ]; intros a Sum N F; [ lia | ].
  cbn [seq]. rewrite update_attempts_step.
  destruct (count_clear_and_write w title df a) as (C & _ & Z & _).
  destruct (F a) as [e Fa]; [ lia | ]. rewrite Fa.
  destruct (Nat.eq_dec n 0) as [-> | ne].
  - assert (a = 5) by lia. subst a. cbn [Nat.ltb Nat.leb fst snd].
    rewrite C, Z, Fa. repeat split; reflexivity.
  - assert (L : Nat.ltb a 5 = true) by (apply Nat.ltb_lt; lia).
    rewrite L. cbn [fst snd].
    destruct (IH (S a)) as (R1 & R2 & R3); [ lia | lia | | ].
    { intros j Hj. apply F. lia. }
    change (EvSleep 20 :: fst (update_attempts w title df (seq (S a) n)))
      with ([EvSleep 20] ++ fst (update_attempts w title df (seq (S a) n))).
    rewrite !count_app, C, Z, R2, R3. cbn. split; [ exact R1 | split; lia ].
Qed.

(** X2.  [safe_clear_and_update] returns as soon as one attempt clears and
    writes without an exception: if attempt [k] is the first such, the
    worksheet has been cleared [k] times with [k - 1] pauses.  If all five
    attempts fail it raises what the fifth attempt raised, after five
    clears and four pauses. *)
Theorem safe_clear_and_update_outcome (w : World) (title : string) (df : DataFrame) :
  (forall k, 1 <= k <= 5 ->
     (forall j, 1 <= j < k ->
        exists e, snd (clear_and_write w title df j) = Raise e) ->
     snd (clear_and_write w title df k) = Ok tt ->
     snd (safe_clear_and_update w title df) = Ok tt
     /\ count is_clear (fst (safe_clear_and_update w title df)) = k
     /\ count is_sleep (fst (safe_clear_and_update w title df)) = k - 1)
  /\ ((forall j, 1 <= j <= 5 ->
         exists e, snd (clear_and_write w title df j) = Raise e) ->
      snd (safe_clear_and_update w title df) = snd (clear_and_write w title df 5)
      /\ count is_clear (fst (safe_clear_and_update w title df)) = 5
      /\ count is_sleep (fst (safe_clear_and_update w title df)) = 4).
Proof.
  unfold safe_clear_and_update. split.
  - intros k R F K.
    destruct (@update_attempts_first_success w title df 5 1 k) as (A & B & C);
      try lia; auto.
    repeat split; [ exact A | lia | lia ].
  - intros F.
    destruct (@update_attempts_all_fail w title df 5 1) as (A & B & C);
      try lia; auto.
Qed.

Lemma safe_clear_and_update_bounds_witness :
  count is_clear (fst (safe_clear_and_update (flaky_sheet 2 3) "TA_slots" parsed_slots)) = 4
  /\ count is_update (fst (safe_clear_and_update (flaky_sheet 2 3) "TA_slots" parsed_slots)) = 2
  /\ (EvWrite "TA_slots" parsed_slots = EvClear "TA_slots"
      \/ EvWrite "TA_slots" parsed_slots = EvWrite "TA_slots" parsed_slots
      \/ EvWrite "TA_slots" parsed_slots = EvSleep 20).
Proof.
  split; [ reflexivity | ]. split; [ reflexivity | ].
  destruct (safe_clear_and_update_bounds (flaky_sheet 2 3) "TA_slots" parsed_slots)
    as (_ & _ & E).
  apply E. vm_compute. tauto.
Defined.

Lemma safe_clear_and_update_outcome_witness :
  (snd (safe_clear_and_update (flaky_sheet 2 3) "TA_slots" parsed_slots) = Ok tt
   /\ count is_clear (fst (safe_clear_and_update (flaky_sheet 2 3) "TA_slots" parsed_slots)) = 4
   /\ count is_sleep (fst (safe_clear_and_update (flaky_sheet 2 3) "TA_slots" parsed_slots)) = 3)
  /\ (snd (safe_clear_and_update (flaky_sheet 5 0) "TA_slots" parsed_slots)
      = Raise (APIError "clear")
      /\ count is_clear (fst (safe_clear_and_update (flaky_sheet 5 0) "TA_slots" parsed_slots)) = 5
      /\ count is_sleep (fst (safe_clear_and_update (flaky_sheet 5 0) "TA_slots" parsed_slots)) = 4).
Proof.
  split.
  - destruct (safe_clear_and_update_outcome (flaky_sheet 2 3) "TA_slots" parsed_slots)
      as [H _].
    apply (H 4).
    + lia.
    + intros j Hj.
      assert (j = 1 \/ j = 2 \/ j = 3) as [-> | [-> | ->]] by lia;
        eexists; reflexivity.
    + reflexivity.
  - destruct (safe_clear_and_update_outcome (flaky_sheet 5 0) "TA_slots" parsed_slots)
      as [_ H].
    apply H. intros j Hj.
    assert (j = 1 \/ j = 2 \/ j = 3 \/ j = 4 \/ j = 5)
      as [-> | [-> | [-> | [-> | ->]]]] by lia;
      eexists; reflexivity.
Defined.






(* ================================================================== *)
(** * [fetch_with_retry] for any number of retries *)

Lemma fetch_attempts_shape w url retries delay : forall n a,
  a + n = retries + 1 -> 1 <= n ->
  snd (fetch_attempts w url retries delay (seq a n)) <> Ok None
  /\ count is_post (fst (fetch_attempts w url retries delay (seq a n)))
     = count is_sleep (fst (fetch_attempts w url retries delay (seq a n))) + 1
  /\ count is_post (fst (fetch_attempts w url retries delay (seq a n))) <= n.
Proof.
  induction n as [ | n IH ]; intros a Sum N; [ lia | ].
  cbn [seq]. rewrite fetch_attempts_step.
  destruct (request w url a) as [ r | e ].
  - cbn. split; [ discriminate | split; lia ].
  - destruct (Nat.ltb a retries) eqn:L.
    + apply Nat.ltb_lt in L.
      destruct (IH (S a)) as (A & B & C); [ lia | lia | ].
      cbn [fst snd].
      change (EvPost url a :: EvSleep delay
                :: fst (fetch_attempts w url retries delay (seq (S a) n)))
        with ([EvPost url a; EvSleep delay]
                ++ fst (fetch_attempts w url retries delay (seq (S a) n))).
      rewrite !count_app. cbn [count filter is_post is_sleep List.length].
      split; [ exact A | split; lia ].
    + cbn. split; [ discriminate | split; lia ].
Qed.

(** X4.  [fetch_with_retry] for any [retries] and [delay].  With
    [retries = 0] the loop body never runs: nothing is posted and the
    function returns [None].  With [retries >= 1] it never returns [None],
    and it pauses exactly once less than it posts.  It never posts more
    than [retries] times and every pause lasts [delay]. *)
Theorem fetch_with_retry_any_retries
  (w : World) (url : option string) (retries delay : nat) :
  (retries = 0 -> fetch_with_retry w url retries delay = ([], Ok None))
  /\ (1 <= retries ->
      snd (fetch_with_retry w url retries delay) <> Ok None
      /\ count is_post (fst (fetch_with_retry w url retries delay))
         = count is_sleep (fst (fetch_with_retry w url retries delay)) + 1)
  /\ count is_post (fst (fetch_with_retry w url retries delay)) <= retries
  /\ (forall ev, In ev (fst (fetch_with_retry w url retries delay)) ->
                 is_sleep ev = true -> ev = EvSleep delay).
Proof.
  unfold fetch_with_retry. split; [ | split; [ | split ] ].
  - intros ->. reflexivity.
  - intros R. destruct (@fetch_attempts_shape w url retries delay retries 1)
      as (A & B & _); try lia. auto.
  - destruct retries as [ | n ]; [ cbn; lia | ].
    destruct (@fetch_attempts_shape w url (S n) delay (S n) 1) as (_ & _ & C);
      [ lia | lia | exact C ].
  - intros ev I S. apply fetch_attempts_events in I.
    destruct I as [(a & -> & _) | ->]; [ discriminate | reflexivity ].
Qed.

Lemma fetch_with_retry_any_retries_witness :
  fetch_with_retry world_five_failures (Some "card/6135") 0 15 = ([], Ok None)
  /\ snd (fetch_with_retry world_five_failures (Some "card/6135") 3 7) <> Ok None
  /\ count is_post (fst (fetch_with_retry world_five_failures (Some "card/6135") 3 7))
     = count is_sleep (fst (fetch_with_retry world_five_failures (Some "card/6135") 3 7)) + 1.
Proof.
  destruct (fetch_with_retry_any_retries world_five_failures (Some "card/6135") 0 15)
    as (Z & _).
  destruct (fetch_with_retry_any_retries world_five_failures (Some "card/6135") 3 7)
    as (_ & P & _).
  split; [ apply Z; reflexivity | ]. apply P. lia.
Defined.

Lemma fetch_attempts_first_success w url retries delay : forall n a k r,
  a + n = retries + 1 -> a <= k < a + n ->
  (forall j, a <= j < k -> exists e, request w url j = Raise e) ->
  request w url k = Ok r ->
  snd (fetch_attempts w url retries delay (seq a n)) = Ok (Some r)
  /\ count is_post (fst (fetch_attempts w url retries delay (seq a n))) = S (k - a).
Proof.
  induction n as [ | n IH ]; intros a k r Sum R F K; [ lia | ].
  cbn [seq]. rewrite fetch_attempts_step.
  destruct (Nat.eq_dec a k) as [-> | ne].
  - rewrite K. cbn. split; [ reflexivity | lia ].
  - destruct (F a) as [e Fa]; [ lia | ]. rewrite Fa.
    assert (L : Nat.ltb a retries = true) by (apply Nat.ltb_lt; lia).
    rewrite L. cbn [fst snd].
    destruct (IH (S a) k r) as (R1 & R2); [ lia | lia | | exact K | ].
    { intros j Hj. apply F. lia. }
    change (EvPost url a :: EvSleep delay
              :: fst (fetch_attempts w url retries delay (seq (S a) n)))
      with ([EvPost url a; EvSleep delay]
              ++ fst (fetch_attempts w url retries delay (seq (S a) n))).
    rewrite count_app, R2. cbn. split; [ exact R1 | lia ].
Qed.

Lemma fetch_attempts_all_fail w url retries delay : forall n a,
  a + n = retries + 1 -> 1 <= n ->
  (forall j, a <= j <= retries -> exists e, request w url j = Raise e) ->
  (exists e, request w url retries = Raise e
             /\ snd (fetch_attempts w url retries delay (seq a n)) = Raise e)
  /\ count is_post (fst (fetch_attempts w url retries delay (seq a n))) = n.
Proof.
  induction n as [ | n IH ]; intros a Sum N F; [ lia | ].
  cbn [seq]. rewrite fetch_attempts_step.
  destruct (F a) as [e Fa]; [ lia | ]. rewrite Fa.
  destruct (Nat.eq_dec n 0) as [-> | ne].
  - assert (a = retries) by lia. subst a. rewrite Nat.ltb_irrefl. cbn.
    split; [ exists e; auto | reflexivity ].
  - assert (L : Nat.ltb a retries = true) by (apply Nat.ltb_lt; lia).
    rewrite L. cbn [fst snd].
    destruct (IH (S a)) as (R1 & R2); [ lia | lia | | ].
    { intros j Hj. apply F. lia. }
    change (EvPost url a :: EvSleep delay
              :: fst (fetch_attempts w url retries delay (seq (S a) n)))
      with ([EvPost url a; EvSleep delay]
              ++ fst (fetch_attempts w url retries delay (seq (S a) n))).
    rewrite count_app, R2. cbn. split; [ exact R1 | lia ].
Qed.

(** X5.  [fetch_with_retry] for any [retries]: if attempt [k] is the first
    that succeeds, with [k <= retries], the function returns that response
    after exactly [k] posts; if all [retries] attempts fail it raises what
    the last attempt raised, after exactly [retries] posts. *)
Theorem fetch_with_retry_outcome
  (w : World) (url : option string) (retries delay : nat) :
  (forall k r, 1 <= k <= retries ->
     (forall j, 1 <= j < k -> exists e, request w url j = Raise e) ->
     request w url k = Ok r ->
     snd (fetch_with_retry w url retries delay) = Ok (Some r)
     /\ count is_post (fst (fetch_with_retry w url retries delay)) = k)
  /\ (1 <= retries ->
      (forall j, 1 <= j <= retries -> exists e, request w url j = Raise e) ->
      (exists e, request w url retries = Raise e
                 /\ snd (fetch_with_retry w url retries delay) = Raise e)
      /\ count is_post (fst (fetch_with_retry w url retries delay)) = retries).
Proof.
  unfold fetch_with_retry. split.
  - intros k r R F K.
    destruct (@fetch_attempts_first_success w url retries delay retries 1 k r)
      as (A & B); [ lia | lia | exact F | exact K | ].
    split; [ exact A | lia ].
  - intros R F.
    apply (@fetch_attempts_all_fail w url retries delay retries 1); [ lia | exact R | exact F ].
Qed.

Lemma fetch_with_retry_outcome_witness :
  (snd (fetch_with_retry world_four_failures (Some "card/6135") 7 1)
   = Ok (Some one_session)
   /\ count is_post (fst (fetch_with_retry world_four_failures (Some "card/6135") 7 1)) = 5)
  /\ (exists e, request world_five_failures (Some "card/6135") 2 = Raise e
                /\ snd (fetch_with_retry world_five_failures (Some "card/6135") 2 1)
                   = Raise e).
Proof.
  split.
  - destruct (fetch_with_retry_outcome world_four_failures (Some "card/6135") 7 1)
      as [H _].
    apply H.
    + lia.
    + intros j Hj.
      assert (j = 1 \/ j = 2 \/ j = 3 \/ j = 4) as [-> | [-> | [-> | ->]]] by lia;
        eexists; reflexivity.
    + reflexivity.
  - destruct (fetch_with_retry_outcome world_five_failures (Some "card/6135") 2 1)
      as [_ H].
    apply H.
    + lia.
    + intros j Hj. assert (j = 1 \/ j = 2) as [-> | ->] by lia; eexists; reflexivity.
Defined.

(* ================================================================== *)
(** * The three fetches (lines 100-108) *)




(* ================================================================== *)
(** * Publishing the three tables (lines 163-170) *)

Lemma about_other w title df title' ev :
  title <> title' ->
  In ev (fst (safe_clear_and_update w title df)) -> about title' ev = false.
Proof.
  intros ne I.
  destruct (update_attempts_bounds w title df (seq 1 5)) as (_ & _ & K).
  destruct (K ev I) as [-> | [-> | ->]]; cbn;
    try (destruct (string_dec title title'); congruence); reflexivity.
Qed.

Lemma publish_cases w key df df3 df4 :
  let u1 := safe_clear_and_update w "TA_sessions" df in
  let u2 := safe_clear_and_update w "TA_slots" df3 in
  let u3 := safe_clear_and_update w "TA-sessions-all" df4 in
  publish w key df df3 df4 =
  match open_by_key w key with
  | Raise e => ([EvOpen key], Raise e)
  | Ok _ =>
  match worksheet w "TA_sessions" with
  | Raise e => ([EvOpen key], Raise e)
  | Ok _ =>
  match snd u1 with
  | Raise e => (EvOpen key :: fst u1, Raise e)
  | Ok _ =>
  match worksheet w "TA_slots" with
  | Raise e => (EvOpen key :: fst u1 ++ [EvSleep 3], Raise e)
  | Ok _ =>
  match snd u2 with
  | Raise e => (EvOpen key :: fst u1 ++ EvSleep 3 :: fst u2, Raise e)
  | Ok _ =>
  match worksheet w "TA-sessions-all" with
  | Raise e => (EvOpen key :: fst u1 ++ EvSleep 3 :: fst u2 ++ [EvSleep 3], Raise e)
  | Ok _ =>
      (EvOpen key :: fst u1 ++ EvSleep 3 :: fst u2 ++ EvSleep 3 :: fst u3, snd u3)
  end end end end end end.
Proof.
  intros u1 u2 u3. unfold publish, mbind, emit, lift. fold u1 u2 u3.
  destruct (open_by_key w key); [ | reflexivity ].
  destruct (worksheet w "TA_sessions"); [ | reflexivity ].
  destruct u1 as [t1 [ [] | e1 ]]; cbn [fst snd app];
    [ | rewrite ?app_nil_r; reflexivity ].
  destruct (worksheet w "TA_slots"); [ | rewrite ?app_nil_r; reflexivity ].
  destruct u2 as [t2 [ [] | e2 ]]; cbn [fst snd app];
    [ | rewrite ?app_nil_r; reflexivity ].
  destruct (worksheet w "TA-sessions-all"); [ | rewrite ?app_nil_r; reflexivity ].
  destruct u3 as [t3 r3]; cbn [fst snd app]. rewrite ?app_nil_r. reflexivity.
Qed.

(** X7.  The three tables are published in the order TA_sessions,
    TA_slots, TA-sessions-all, with a pause of three seconds between two
    of them, and a failure stops the sequence: TA_slots is cleared or
    written only after the update of TA_sessions has succeeded, and
    TA-sessions-all only after both earlier updates have.  When the
    publication succeeds its trace is the three updates in that order. *)
Theorem publish_in_order
  (w : World) (key : string) (df df3 df4 : DataFrame) :
  (snd (publish w key df df3 df4) = Ok tt ->
   snd (safe_clear_and_update w "TA_sessions" df) = Ok tt
   /\ snd (safe_clear_and_update w "TA_slots" df3) = Ok tt
   /\ snd (safe_clear_and_update w "TA-sessions-all" df4) = Ok tt
   /\ fst (publish w key df df3 df4)
      = EvOpen key :: fst (safe_clear_and_update w "TA_sessions" df)
          ++ EvSleep 3 :: fst (safe_clear_and_update w "TA_slots" df3)
          ++ EvSleep 3 :: fst (safe_clear_and_update w "TA-sessions-all" df4))
  /\ (forall ev, In ev (fst (publish w key df df3 df4)) ->
        about "TA_slots" ev = true ->
        snd (safe_clear_and_update w "TA_sessions" df) = Ok tt)
  /\ (forall ev, In ev (fst (publish w key df df3 df4)) ->
        about "TA-sessions-all" ev = true ->
        snd (safe_clear_and_update w "TA_sessions" df) = Ok tt
        /\ snd (safe_clear_and_update w "TA_slots" df3) = Ok tt).
Proof.
  pose proof (publish_cases w key df df3 df4) as P. cbv zeta in P. rewrite P.
  clear P.
  assert (N12 : forall ev, In ev (fst (safe_clear_and_update w "TA_sessions" df)) ->
                           about "TA_slots" ev = false)
    by (intros ev; apply about_other; discriminate).
  assert (N13 : forall ev, In ev (fst (safe_clear_and_update w "TA_sessions" df)) ->
                           about "TA-sessions-all" ev = false)
    by (intros ev; apply about_other; discriminate).
  assert (N23 : forall ev, In ev (fst (safe_clear_and_update w "TA_slots" df3)) ->
                           about "TA-sessions-all" ev = false)
    by (intros ev; apply about_other; discriminate).
  destruct (open_by_key w key).
  2:{ split; [ discriminate | ].
      split; intros ev [<- | []]; discriminate. }
  destruct (worksheet w "TA_sessions").
  2:{ split; [ discriminate | ].
      split; intros ev [<- | []]; discriminate. }
  destruct (snd (safe_clear_and_update w "TA_sessions" df)) as [ [] | e1 ].
  2:{ split; [ discriminate | ]. cbn [fst].
      split; intros ev [<- | I] A; try discriminate.
      - rewrite (N12 ev I) in A. discriminate.
      - rewrite (N13 ev I) in A. discriminate. }
  destruct (worksheet w "TA_slots").
  2:{ split; [ discriminate | ]. cbn [fst]. split; [ reflexivity | ].
      intros ev [<- | I] A; try discriminate.
      apply in_app_or in I. destruct I as [I | [<- | []]]; try discriminate.
      rewrite (N13 ev I) in A. discriminate. }
  destruct (snd (safe_clear_and_update w "TA_slots" df3)) as [ [] | e2 ].
  2:{ split; [ discriminate | ]. cbn [fst]. split; [ reflexivity | ].
      intros ev [<- | I] A; try discriminate.
      apply in_app_or in I. destruct I as [I | [<- | I]]; try discriminate.
      - rewrite (N13 ev I) in A. discriminate.
      - rewrite (N23 ev I) in A. discriminate. }
  destruct (worksheet w "TA-sessions-all").
  2:{ split; [ discriminate | ]. split; [ reflexivity | ].
      intros ev I A. split; reflexivity. }
  cbn [fst snd]. split; [ | split; [ reflexivity | split; reflexivity ] ].
  intros U. repeat split; auto.
Qed.

Lemma publish_in_order_witness :
  snd (safe_clear_and_update (flaky_sheet 1 0) "TA_sessions" engineered_sessions)
  = Ok tt
  /\ snd (safe_clear_and_update (flaky_sheet 1 0) "TA_slots" parsed_slots) = Ok tt.
Proof.
  destruct (publish_in_order (flaky_sheet 1 0) "sheet-key" engineered_sessions
              parsed_slots parsed_slots) as (_ & _ & H).
  apply (H (EvClear "TA-sessions-all")).
  - cbv. repeat (first [ left; reflexivity | right ]).
  - reflexivity.
Defined.

(* ================================================================== *)
(** * Start-up (lines 18-63) *)

Lemma rstrip_slash_no_trailing s : last_char (rstrip_slash s) <> Some "/"%char.
Proof.
  induction s as [ | a s IH ]; cbn [rstrip_slash]; [ discriminate | ].
  destruct (rstrip_slash s) as [ | b t ] eqn:E.
  - destruct (Ascii.eqb a "/") eqn:A; [ discriminate | ].
    cbn. intros [= ->]. rewrite Ascii.eqb_refl in A. discriminate.
  - exact IH.
Qed.

Lemma rstrip_slash_snoc s :
  rstrip_slash (String.append s "/") = rstrip_slash s.
Proof.
  induction s as [ | a s IH ]; [ reflexivity | ].
  cbn [String.append rstrip_slash]. rewrite IH. reflexivity.
Qed.

Lemma rstrip_slash_fixed s :
  last_char s <> Some "/"%char -> rstrip_slash s = s.
Proof.
  induction s as [ | a s IH ]; [ reflexivity | ].
  intros L. cbn [rstrip_slash]. destruct s as [ | b t ].
  - cbn. destruct (Ascii.eqb a "/") eqn:A; [ | reflexivity ].
    apply Ascii.eqb_eq in A. subst a. exfalso. apply L. reflexivity.
  - rewrite IH by exact L. reflexivity.
Qed.

(** X9.  Line 21 strips every trailing slash of [METABASE_URL] and no
    other character: the stripped base never ends in a slash, a base that
    does not end in a slash is left as it is, stripping is idempotent, and
    one more trailing slash changes nothing, neither in the base nor in
    anything the run does. *)
Theorem rstrip_slash_strips_trailing_slashes (s : string) :
  last_char (rstrip_slash s) <> Some "/"%char
  /\ (last_char s <> Some "/"%char -> rstrip_slash s = s)
  /\ rstrip_slash (rstrip_slash s) = rstrip_slash s
  /\ rstrip_slash (String.append s "/") = rstrip_slash s
  /\ (forall parse w env,
        main parse w (with_metabase_url env (String.append s "/"))
        = main parse w (with_metabase_url env s)).
Proof.
  split; [ apply rstrip_slash_no_trailing | ].
  split; [ apply rstrip_slash_fixed | ].
  split; [ apply rstrip_slash_fixed, rstrip_slash_no_trailing | ].
  split; [ apply rstrip_slash_snoc | ].
  intros parse w env. unfold main, startup, fetch_all, with_metabase_url.
  cbn [METABASE_URL ASHRITHA_SECRET_KEY SERVICE_ACCOUNT_JSON TA_SHEET_ACCESS_KEY
       USERNAME TA_SESSIONS_QUERY TA_BATCH_QUERY TA_SLOTS_QUERY].
  rewrite rstrip_slash_snoc. reflexivity.
Qed.

Lemma rstrip_slash_strips_trailing_slashes_witness :
  rstrip_slash "https://metabase.example" = "https://metabase.example"
  /\ rstrip_slash "https://metabase.example//" = "https://metabase.example".
Proof.
  destruct (rstrip_slash_strips_trailing_slashes "https://metabase.example")
    as (_ & F & _ & S & _).
  destruct (rstrip_slash_strips_trailing_slashes "https://metabase.example/")
    as (_ & _ & _ & S' & _).
  split; [ apply F; discriminate | ].
  cbn [String.append] in S, S'. rewrite S', S. apply F. discriminate.
Defined.

Lemma startup_cases w env :
  (fst (startup w env) = [] /\ exists e, snd (startup w env) = Raise e)
  \/ exists base,
       METABASE_URL env = Some base
       /\ truthy (ASHRITHA_SECRET_KEY env) = true
       /\ truthy (SERVICE_ACCOUNT_JSON env) = true
       /\ truthy (TA_SHEET_ACCESS_KEY env) = true
       /\ google_auth w (or_empty (SERVICE_ACCOUNT_JSON env)) = Ok tt
       /\ fst (startup w env)
          = [EvLogin (String.append (rstrip_slash base) "/api/session")]
       /\ snd (startup w env)
          = login w (String.append (rstrip_slash base) "/api/session")
                  (USERNAME env) (or_empty (ASHRITHA_SECRET_KEY env)).
Proof.
  unfold startup.
  destruct (METABASE_URL env) as [ base | ]; [ | left; split; [ reflexivity | eexists; reflexivity ] ].
  destruct (truthy (ASHRITHA_SECRET_KEY env)); cbn [negb orb];
    [ | left; split; [ reflexivity | eexists; reflexivity ] ].
  destruct (truthy (SERVICE_ACCOUNT_JSON env)); cbn [negb];
    [ | left; split; [ reflexivity | eexists; reflexivity ] ].
  destruct (truthy (TA_SHEET_ACCESS_KEY env)); cbn [negb];
    [ | left; split; [ reflexivity | eexists; reflexivity ] ].
  unfold mbind, lift, emit.
  destruct (google_auth w (or_empty (SERVICE_ACCOUNT_JSON env))) as [ [] | e ];
    [ | left; split; [ reflexivity | eexists; reflexivity ] ].
  right. exists base.
  destruct (login w _ (USERNAME env) (or_empty (ASHRITHA_SECRET_KEY env)));
    repeat split; reflexivity.
Qed.

Lemma main_trace parse w env :
  fst (main parse w env) = fst (startup w env)
  \/ (exists tok, snd (startup w env) = Ok tok)
     /\ fst (main parse w env) = fst (startup w env) ++ fst (fetch_all w env).
Proof.
  rewrite main_unfold.
  destruct (startup w env) as [t0 [tok | e0]]; [ | left; reflexivity ].
  right. split; [ eexists; reflexivity | ].
  destruct (fetch_all w env) as [t1 [[[s b] sl] | e1]]; [ | reflexivity ].
  destruct (join_pipeline_never_returns parse
              (match json s with Ok x => x | Raise _ => [] end)
              (match json b with Ok x => x | Raise _ => [] end)
              (match json sl with Ok x => x | Raise _ => [] end)) as [e E].
  destruct (json s) as [ s0 | ]; [ | cbn; rewrite app_nil_r; reflexivity ].
  destruct (json b) as [ b0 | ]; [ | cbn; rewrite app_nil_r; reflexivity ].
  destruct (json sl) as [ sl0 | ]; [ | cbn; rewrite app_nil_r; reflexivity ].
  cbn [rbind]. rewrite E. cbn. rewrite app_nil_r. reflexivity.
Qed.

Lemma fetch_all_events w env ev :
  In ev (fst (fetch_all w env)) -> is_post ev = true \/ is_sleep ev = true.
Proof.
  unfold fetch_all.
  pose proof (@fetch_attempts_events w (TA_SESSIONS_QUERY env) 5 15 (seq 1 5) ev) as E1.
  pose proof (@fetch_attempts_events w (TA_BATCH_QUERY env) 5 15 (seq 1 5) ev) as E2.
  pose proof (@fetch_attempts_events w (TA_SLOTS_QUERY env) 5 15 (seq 1 5) ev) as E3.
  fold (fetch_with_retry w (TA_SESSIONS_QUERY env) 5 15) in E1.
  fold (fetch_with_retry w (TA_BATCH_QUERY env) 5 15) in E2.
  fold (fetch_with_retry w (TA_SLOTS_QUERY env) 5 15) in E3.
  destruct (fetch_with_retry w (TA_SESSIONS_QUERY env) 5 15) as [t1 r1].
  destruct (fetch_with_retry w (TA_BATCH_QUERY env) 5 15) as [t2 r2].
  destruct (fetch_with_retry w (TA_SLOTS_QUERY env) 5 15) as [t3 r3].
  cbn [fst] in *. rewrite !in_app_iff. intros [I | [I | I]];
    [ destruct (E1 I) as [(a & -> & _) | ->]
    | destruct (E2 I) as [(a & -> & _) | ->]
    | destruct (E3 I) as [(a & -> & _) | ->] ]; auto.
Qed.

(** X10.  A run logs in at most once, and only to the stripped base
    followed by [/api/session], after the three checked values were found
    and Google accepted the service account.  No query is posted unless
    that login returned a token. *)
Theorem login_once_and_first
  (parse : value -> option Timestamp) (w : World) (env : Env) :
  count is_login (fst (main parse w env)) <= 1
  /\ (forall u, In (EvLogin u) (fst (main parse w env)) ->
        exists base,
          METABASE_URL env = Some base
          /\ u = String.append (rstrip_slash base) "/api/session"
          /\ truthy (ASHRITHA_SECRET_KEY env) = true
          /\ truthy (SERVICE_ACCOUNT_JSON env) = true
          /\ truthy (TA_SHEET_ACCESS_KEY env) = true
          /\ google_auth w (or_empty (SERVICE_ACCOUNT_JSON env)) = Ok tt)
  /\ (forall url a, In (EvPost url a) (fst (main parse w env)) ->
        exists tok, snd (startup w env) = Ok tok).
Proof.
  assert (NL : forall t, (forall ev, In ev t -> is_post ev = true \/ is_sleep ev = true) ->
                         count is_login t = 0).
  { induction t as [ | ev t IH ]; intros H; [ reflexivity | ].
    unfold count in *. cbn [filter].
    destruct (H ev (or_introl eq_refl)) as [P | P]; destruct ev; try discriminate;
      cbn; apply IH; intros ev' I; apply H; right; exact I. }
  pose proof (NL _ (fetch_all_events w env)) as F0.
  destruct (main_trace parse w env) as [T | [[tok S] T]]; rewrite T;
    destruct (startup_cases w env)
      as [[T0 [e E]] | (base & B & K1 & K2 & K3 & G & T0 & R)];
    rewrite ?count_app, T0, ?F0; cbn [count filter is_login List.length app].
  - repeat split; [ lia | intros u [] | intros url a [] ].
  - split; [ lia | ]. split.
    + intros u [[= <-] | []]. exists base. repeat split; assumption.
    + intros url a [X | []]. discriminate.
  - congruence.
  - split; [ lia | ]. split.
    + intros u [[= <-] | I]; [ exists base; repeat split; assumption | ].
      destruct (fetch_all_events w env _ I); discriminate.
    + intros url a _. eauto.
Qed.

Lemma login_once_and_first_witness :
  exists tok, snd (startup (Sample.world [] [] []) Sample.env) = Ok tok.
Proof.
  destruct (login_once_and_first iso_parse (Sample.world [] [] []) Sample.env)
    as (_ & _ & H).
  apply (H (Some "card/6570") 1).
  cbv. repeat (first [ left; reflexivity | right ]).
Defined.

(* ================================================================== *)
(** * Frames from records (lines 113, 124, 154) *)

Lemma carried_columns recs c :
  carried recs c <-> In c (columns (DataFrame_of_records recs)).
Proof. unfold carried. symmetry. apply columns_of_records. Qed.




(* ================================================================== *)
(** * The sessions table (lines 113-121) *)

Lemma getitem_cols_Ok cs df d :
  getitem_cols cs df = Ok d ->
  d = mkDF cs (map (project cs) (rows df))
  /\ forall c, In c cs -> In c (columns df).
Proof.
  unfold getitem_cols.
  destruct (filter (fun c => negb (mem c (columns df))) cs) eqn:F; [ | discriminate ].
  intros [= <-]. split; [ reflexivity | ].
  intros c I. pose proof (filter_nil_forall _ _ F c I) as H.
  apply negb_false_iff, mem_true in H. exact H.
Qed.

(** X11.  When line 116 finds its fourteen columns, [df1] has exactly
    those columns in the order of the selection, with [lu_batch_name]
    called [Batch] and [module_name] called [Module]: every other column
    of the dataset is dropped.  It has one row per record, in order, and
    each row holds the record's cells under the new labels. *)
Theorem build_df1_projects_and_renames (sessions : list Row) (df1 : DataFrame) :
  build_df1 sessions = Ok df1 ->
  columns df1 =
    [ "subjective_feedback"; "Batch"; "au_batch_name"; "au_start_date";
      "feedback_given"; "session_id"; "rating"; "description"; "Module";
      "topic"; "cancel_reason"; "action_time"; "booked_time";
      "session_start_time" ]
  /\ List.length (rows df1) = List.length sessions
  /\ forall i rec, nth_error sessions i = Some rec ->
       exists row,
         nth_error (rows df1) i = Some row
         /\ map fst row = columns df1
         /\ cell row "Batch" = cell rec "lu_batch_name"
         /\ cell row "Module" = cell rec "module_name"
         /\ forall c, In c df1_columns ->
              c <> "lu_batch_name" -> c <> "module_name" ->
              cell row c = cell rec c.
Proof.
  intros B. pose proof (build_df1_columns _ B) as C. split; [ exact C | ].
  unfold build_df1 in B.
  destruct (getitem_cols df1_columns (DataFrame_of_records sessions)) as [ d | ] eqn:G;
    [ | discriminate ].
  cbn [rbind] in B. injection B as <-.
  apply getitem_cols_Ok in G. destruct G as [-> P].
  split; [ cbn [rename rows DataFrame_of_records]; rewrite !length_map; reflexivity | ].
  intros i rec Hi.
  set (r0 := project (columns (DataFrame_of_records sessions)) rec).
  assert (K : forall c, In c df1_columns -> cell r0 c = cell rec c)
    by (intros c I; apply cell_project, P, I).
  exists (relabel (rename_label [("lu_batch_name", "Batch"); ("module_name", "Module")])
                  (project df1_columns r0)).
  split.
  { cbn [rename rows DataFrame_of_records].
    rewrite !nth_error_map, Hi. reflexivity. }
  split; [ reflexivity | ].
  split; [ cbn; apply K; cbn; tauto | ].
  split; [ cbn; apply K; cbn; tauto | ].
  intros c I n1 n2. rewrite <- (K c I).
  cbn in I.
  repeat (destruct I as [<- | I]; [ try congruence; reflexivity | ]).
  destruct I.
Qed.

Lemma build_df1_projects_and_renames_witness :
  exists df1 row,
    build_df1 one_session = Ok df1
    /\ nth_error (rows df1) 0 = Some row
    /\ cell row "Batch" = VStr "B1" /\ cell row "Module" = VStr "SQL".
Proof.
  eexists.
  match goal with
  | |- exists row, ?b = Ok ?d /\ _ =>
      destruct (@build_df1_projects_and_renames one_session d eq_refl)
        as (_ & _ & H)
  end.
  destruct (H 0 _ eq_refl) as (row & N & _ & B & M & _).
  exists row. split; [ reflexivity | ]. split; [ exact N | ].
  split; [ rewrite B | rewrite M ]; reflexivity.
Defined.

(** X12.  Line 116 succeeds exactly when the sessions dataset carries the
    fourteen selected columns.  Otherwise it raises a [KeyError] that
    lists the selected columns no record carries, and those only; on an
    empty dataset it lists all fourteen. *)
Theorem build_df1_reports_missing_columns (sessions : list Row) :
  ((exists df1, build_df1 sessions = Ok df1) <->
   forall c, In c df1_columns -> carried sessions c)
  /\ (forall e, build_df1 sessions = Raise e ->
        exists missing,
          e = KeyError missing /\ missing <> []
          /\ forall c, In c missing <->
                       In c df1_columns /\ ~ carried sessions c)
  /\ build_df1 [] = Raise (KeyError df1_columns).
Proof.
  unfold build_df1, getitem_cols.
  destruct (filter (fun c => negb (mem c (columns (DataFrame_of_records sessions))))
                   df1_columns) as [ | m ms ] eqn:F.
  - split; [ | split; [ intros e; discriminate | reflexivity ] ].
    split; [ | intros _; eexists; reflexivity ].
    intros _ c I. apply carried_columns.
    pose proof (filter_nil_forall _ _ F c I) as H.
    apply negb_false_iff, mem_true in H. exact H.
  - assert (M : forall c, In c (m :: ms) <->
                          In c df1_columns /\ ~ carried sessions c).
    { intros c. rewrite <- F, filter_In, negb_true_iff, mem_false, carried_columns.
      reflexivity. }
    split; [ | split; [ | reflexivity ] ].
    + split; [ intros [df1 H]; discriminate | ].
      intros H. exfalso. destruct (proj1 (M m) (or_introl eq_refl)) as [I N].
      exact (N (H m I)).
    + cbn [rbind]. intros e [= <-]. exists (m :: ms).
      split; [ reflexivity | ]. split; [ discriminate | exact M ].
Qed.

Lemma build_df1_reports_missing_columns_witness :
  exists missing,
    build_df1 batch_without_mentor = Raise (KeyError missing)
    /\ (In "rating" missing <->
        In "rating" df1_columns /\ ~ carried batch_without_mentor "rating").
Proof.
  destruct (build_df1_reports_missing_columns batch_without_mentor) as (_ & H & _).
  destruct (H (KeyError
                 [ "subjective_feedback"; "lu_batch_name"; "au_batch_name";
                   "au_start_date"; "feedback_given"; "rating"; "description";
                   "module_name"; "topic"; "cancel_reason"; "action_time";
                   "booked_time" ]) eq_refl) as (missing & E & _ & M).
  exists missing. split; [ rewrite <- E; reflexivity | apply M ].
Defined.

(* ================================================================== *)
(** * The batch table (lines 124-131) *)

Lemma columns_df2_of batch c :
  In c (columns (df2_of batch)) <->
  (c <> "batch" /\ carried batch c) \/ (c = "Batch" /\ carried batch "batch").
Proof.
  unfold df2_of. rewrite columns_rename. split.
  - intros (c0 & I & E). apply carried_columns in I. cbn in E.
    destruct (string_dec c0 "batch") as [-> | ne].
    + right. split; [ symmetry; exact E | exact I ].
    + subst c0. left. split; assumption.
  - intros [[ne C] | [-> C]].
    + exists c. split; [ apply carried_columns; exact C | ].
      cbn. destruct (string_dec c "batch"); [ contradiction | reflexivity ].
    + exists "batch". split; [ apply carried_columns; exact C | reflexivity ].
Qed.

Lemma in_missing_df2_cols batch c :
  In c (missing_df2_cols (df2_of batch)) <->
  In c required_df2_cols /\ ~ In c (columns (df2_of batch)).
Proof.
  unfold missing_df2_cols.
  rewrite filter_In, negb_true_iff, mem_false. reflexivity.
Qed.

(** X13.  Lines 124-131 rename [batch] to [Batch] and keep every other
    column of the batch dataset.  They let the table through exactly when
    it carries [session_id], [mentor_name], [time_category],
    [session_start_time] and one of [batch] and [Batch]; otherwise they
    raise the [ValueError] that lists the required columns the renamed
    table lacks, and those only. *)
Theorem build_df2_validates_the_batch_table (batch : list Row) :
  (build_df2 batch = Ok (df2_of batch) <->
     carried batch "session_id"
     /\ (carried batch "batch" \/ carried batch "Batch")
     /\ carried batch "mentor_name" /\ carried batch "time_category"
     /\ carried batch "session_start_time")
  /\ (forall df2, build_df2 batch = Ok df2 -> df2 = df2_of batch)
  /\ (forall e, build_df2 batch = Raise e ->
        e = validation_error batch
        /\ missing_df2_cols (df2_of batch) <> []
        /\ forall c, In c (missing_df2_cols (df2_of batch)) <->
                     In c required_df2_cols
                     /\ ~ carried batch c
                     /\ ~ (c = "Batch" /\ carried batch "batch")).
Proof.
  assert (P : forall c, In c required_df2_cols ->
                (In c (columns (df2_of batch)) <->
                 carried batch c \/ (c = "Batch" /\ carried batch "batch"))).
  { intros c R. rewrite columns_df2_of.
    assert (c <> "batch")
      by (cbn in R; repeat (destruct R as [<- | R]; [ discriminate | ]); destruct R).
    tauto. }
  unfold build_df2, validation_error. fold (df2_of batch).
  destruct (missing_df2_cols (df2_of batch)) as [ | m ms ] eqn:M.
  - split; [ | split; [ intros df2 [= <-]; reflexivity | intros e; discriminate ] ].
    split; [ intros _ | reflexivity ].
    assert (Q : forall c, In c required_df2_cols ->
                  carried batch c \/ (c = "Batch" /\ carried batch "batch")).
    { intros c R. apply (P c R).
      destruct (in_dec string_dec c (columns (df2_of batch))) as [I | N]; [ exact I | ].
      exfalso. assert (In c []) as []. rewrite <- M. apply in_missing_df2_cols. auto. }
    pose proof (Q "session_id") as Q1. pose proof (Q "Batch") as Q2.
    pose proof (Q "mentor_name") as Q3. pose proof (Q "time_category") as Q4.
    pose proof (Q "session_start_time") as Q5. cbn in Q1, Q2, Q3, Q4, Q5.
    repeat split.
    + destruct Q1 as [H | [H _]]; [ tauto | exact H | discriminate ].
    + destruct Q2 as [H | [_ H]]; tauto.
    + destruct Q3 as [H | [H _]]; [ tauto | exact H | discriminate ].
    + destruct Q4 as [H | [H _]]; [ tauto | exact H | discriminate ].
    + destruct Q5 as [H | [H _]]; [ tauto | exact H | discriminate ].
  - assert (Im : In m (missing_df2_cols (df2_of batch)))
      by (rewrite M; left; reflexivity).
    apply in_missing_df2_cols in Im. destruct Im as [Rm Nm].
    split; [ | split; [ intros df2; discriminate | ] ].
    + split; [ discriminate | ].
      intros (C1 & C2 & C3 & C4 & C5). exfalso. apply Nm. apply (P m Rm).
      cbn in Rm.
      repeat (destruct Rm as [<- | Rm]; [ tauto | ]). destruct Rm.
    + intros e [= <-]. split; [ reflexivity | ]. split; [ discriminate | ].
      intros c. rewrite <- M, in_missing_df2_cols. split.
      * intros [R N]. rewrite (P c R) in N. tauto.
      * intros (R & N1 & N2). split; [ exact R | ]. rewrite (P c R). tauto.
Qed.

Lemma build_df2_validates_the_batch_table_witness :
  build_df2 batch_without_mentor = Raise (validation_error batch_without_mentor)
  /\ (In "mentor_name" (missing_df2_cols (df2_of batch_without_mentor)) <->
      In "mentor_name" required_df2_cols
      /\ ~ carried batch_without_mentor "mentor_name"
      /\ ~ ("mentor_name" = "Batch" /\ carried batch_without_mentor "batch")).
Proof.
  destruct (build_df2_validates_the_batch_table batch_without_mentor) as (_ & _ & H).
  destruct (H (validation_error batch_without_mentor) eq_refl) as (_ & _ & M).
  split; [ reflexivity | apply M ].
Defined.

(* ================================================================== *)
(** * Dropping duplicate rows (line 151) *)

Lemma drop_dups_in seen rs r :
  In r (drop_dups seen rs) <-> In r rs /\ ~ In r seen.
Proof.
  split.
  - revert seen. induction rs as [ | r0 rs IH ]; simpl; intros seen; [ tauto | ].
    destruct (in_dec Row_eq_dec r0 seen) as [ i | n ].
    + intros H. apply IH in H. tauto.
    + intros [<- | H]; [ tauto | ]. apply IH in H. simpl in H. tauto.
  - intros [I N]. apply drop_dups_complete; assumption.
Qed.

Lemma drop_dups_NoDup seen rs : NoDup (drop_dups seen rs).
Proof.
  revert seen. induction rs as [ | r0 rs IH ]; simpl; intros seen; [ constructor | ].
  destruct (in_dec Row_eq_dec r0 seen); [ apply IH | ].
  constructor; [ | apply IH ].
  intros H. apply drop_dups_in in H. simpl in H. tauto.
Qed.

Lemma drop_dups_fixed seen rs :
  NoDup rs -> (forall r, In r rs -> ~ In r seen) -> drop_dups seen rs = rs.
Proof.
  revert seen. induction rs as [ | r0 rs IH ]; simpl; intros seen N D; [ reflexivity | ].
  inversion N as [ | ? ? N1 N2 ]; subst.
  destruct (in_dec Row_eq_dec r0 seen) as [ i | n ].
  - exfalso. exact (D r0 (or_introl eq_refl) i).
  - f_equal. apply IH; [ exact N2 | ].
    intros r I [<- | H]; [ exact (N1 I) | exact (D r (or_intror I) H) ].
Qed.

Lemma drop_dups_length seen rs :
  List.length (drop_dups seen rs) <= List.length rs.
Proof.
  revert seen. induction rs as [ | r0 rs IH ]; simpl; intros seen; [ lia | ].
  destruct (in_dec Row_eq_dec r0 seen); simpl.
  - specialize (IH seen). lia.
  - specialize (IH (r0 :: seen)). lia.
Qed.

(** X14.  [drop_duplicates] keeps the columns, returns rows that are
    pairwise different, the same rows as before as a set and never more of
    them, with the first row still first.  Applying it again changes
    nothing, and a frame without equal rows is returned as it is. *)
Theorem drop_duplicates_keeps_one_of_each (df : DataFrame) :
  columns (drop_duplicates df) = columns df
  /\ NoDup (rows (drop_duplicates df))
  /\ (forall r, In r (rows (drop_duplicates df)) <-> In r (rows df))
  /\ List.length (rows (drop_duplicates df)) <= List.length (rows df)
  /\ hd_error (rows (drop_duplicates df)) = hd_error (rows df)
  /\ drop_duplicates (drop_duplicates df) = drop_duplicates df
  /\ (NoDup (rows df) -> drop_duplicates df = df).
Proof.
  unfold drop_duplicates. cbn [columns rows].
  split; [ reflexivity | ].
  split; [ apply drop_dups_NoDup | ].
  split; [ intros r; rewrite drop_dups_in; simpl; tauto | ].
  split; [ apply drop_dups_length | ].
  split; [ destruct (rows df); reflexivity | ].
  split.
  - f_equal. apply drop_dups_fixed; [ apply drop_dups_NoDup | auto ].
  - intros N. destruct df as [cs rs]. cbn [columns rows] in *. f_equal.
    apply drop_dups_fixed; [ exact N | auto ].
Qed.

Lemma drop_duplicates_keeps_one_of_each_witness :
  NoDup (rows march_session_january_batch)
  /\ drop_duplicates march_session_january_batch = march_session_january_batch.
Proof.
  assert (N : NoDup (rows march_session_january_batch)).
  { cbn. constructor; [ intros [] | constructor ]. }
  split; [ exact N | ].
  destruct (drop_duplicates_keeps_one_of_each march_session_january_batch)
    as (_ & _ & _ & _ & _ & _ & H).
  exact (H N).
Defined.

(* ================================================================== *)
(** * What lines 137-151 need and what they leave alone *)





Lemma feature_engineering_columns parse df df' :
  feature_engineering parse df = Ok df' ->
  forall c, In c (columns df') <->
            In c (columns df) \/ c = "month_diff_period"
            \/ c = "year_month_date_hour".
Proof.
  unfold feature_engineering.
  destruct (parse_timestamps parse df) as [ d1 | ] eqn:S1; [ | discriminate ].
  cbn [rbind].
  destruct (add_month_diff_period d1) as [ d2 | ] eqn:S2; [ | discriminate ].
  cbn [rbind].
  destruct (dedup_rating d2) as [ d3 | ] eqn:S3; [ | discriminate ].
  cbn [rbind].
  destruct (add_year_month_date_hour d3) as [ d4 | ] eqn:S4; [ | discriminate ].
  cbn [rbind]. intros [= <-] c.
  destruct (parse_timestamps_rows _ _ S1) as [_ K1].
  destruct (add_month_diff_period_rows _ S2) as [_ K2].
  destruct (dedup_rating_rows _ S3) as [_ K3].
  destruct (add_year_month_date_hour_rows _ S4) as [_ K4].
  unfold drop_duplicates. cbn [columns].
  rewrite K4, K3, K2, K1. tauto.
Qed.

(** X16.  The frame lines 137-151 return has the columns of the frame they
    were given plus [month_diff_period] and [year_month_date_hour], no row
    twice and no more rows than before.  Every row of it comes from a row
    of the given frame and agrees with it on every column other than the
    two timestamps, the rating and the two derived columns. *)
Theorem feature_engineering_touches_five_columns
  (parse : value -> option Timestamp) (df df' : DataFrame) :
  feature_engineering parse df = Ok df' ->
  (forall c, In c (columns df') <->
             In c (columns df) \/ c = "month_diff_period"
             \/ c = "year_month_date_hour")
  /\ NoDup (rows df')
  /\ List.length (rows df') <= List.length (rows df)
  /\ forall r', In r' (rows df') ->
       exists r0, In r0 (rows df)
         /\ forall c, c <> "session_start_time" -> c <> "au_start_date" ->
                      c <> "rating" -> c <> "month_diff_period" ->
                      c <> "year_month_date_hour" ->
                      cell r' c = cell r0 c.
Proof.
  intros F. split; [ apply (feature_engineering_columns _ _ F) | ].
  pose proof (feature_engineering_rows_eq _ _ F) as R.
  split; [ rewrite R; apply drop_dups_NoDup | ].
  split.
  { rewrite R. etransitivity; [ apply drop_dups_length | ].
    rewrite length_map, length_rated_rows. unfold dated_rows.
    rewrite !length_map. apply Nat.le_refl. }
  intros r' I. destruct (feature_engineering_rows _ _ F r' I) as (r0 & v & I0 & ->).
  exists r0. split; [ exact I0 | ].
  intros c n1 n2 n3 n4 n5.
  unfold key_row, month_diff_row, parsed_row.
  rewrite !cell_set_cell_other by congruence. reflexivity.
Qed.

Lemma feature_engineering_touches_five_columns_witness :
  In "Batch" (columns engineered_sessions)
  /\ In "month_diff_period" (columns engineered_sessions)
  /\ NoDup (rows engineered_sessions).
Proof.
  destruct (@feature_engineering_touches_five_columns iso_parse
              (Sample.joined
                 [ Sample.joined_row 1 (VInt 5) (VStr "2024-03-05T08:00")
                                     (VStr "2024-01-20T23:00");
                   Sample.joined_row 2 (VInt 4) (VStr "2024-03-06T10:00")
                                     (VStr "2024-01-20T23:00") ])
              engineered_sessions eq_refl) as (C & N & _).
  split; [ apply C; left; cbn; tauto | ].
  split; [ apply C; tauto | exact N ].
Defined.

(* ================================================================== *)
(** * Ratings and month differences in the engineered frame *)

Lemma engineered_row_of_null_session parse df df' r :
  feature_engineering parse df = Ok df' -> In r (rows df') ->
  cell r "session_id" = VNull -> cell r "rating" = VNull.
Proof.
  intros F I E. rewrite (feature_engineering_rows_eq _ _ F) in I.
  apply drop_dups_incl in I. apply in_map_iff in I. destruct I as (r3 & <- & I).
  apply In_nth_error in I. destruct I as [i Hi].
  destruct (nth_error_rated_rows _ _ _ Hi) as (r2 & v & D2 & G2 & ->).
  unfold key_row in *. revert E. cell_simpl. intros E.
  assert (Hk : nth_error (map (fun r => cell r "session_id") (dated_rows parse df)) i
               = Some (cell r2 "session_id")) by (apply nth_error_cells; exact D2).
  assert (Hc : nth_error (map (fun r => cell r "rating") (dated_rows parse df)) i
               = Some (cell r2 "rating")) by (apply nth_error_cells; exact D2).
  pose proof (@dedup_null_key _ _ i _ _ Hk Hc E) as Hv.
  rewrite Hv in G2. injection G2 as <-. reflexivity.
Qed.

(** X17.  In the frame lines 137-151 return, a session has at most one
    rated row: a row that follows another row of the same session has no
    rating, and a row without a session id has none either.  Dropping the
    duplicate rows at line 151 does not bring a rating back. *)
Theorem engineered_frame_rates_a_session_once
  (parse : value -> option Timestamp) (df df' : DataFrame) :
  feature_engineering parse df = Ok df' ->
  (forall r, In r (rows df') ->
     cell r "session_id" = VNull -> cell r "rating" = VNull)
  /\ (forall pre r post, rows df' = pre ++ r :: post ->
        (exists r1, In r1 pre /\ cell r1 "session_id" = cell r "session_id") ->
        cell r "rating" = VNull).
Proof.
  intros F. split.
  - intros r I E. eapply engineered_row_of_null_session; eassumption.
  - intros pre r post S Ex.
    destruct (value_eq_dec (cell r "session_id") VNull) as [E | N].
    + eapply engineered_row_of_null_session; [ exact F | | exact E ].
      rewrite S. apply in_elt.
    + eapply later_rows_of_a_session_have_no_rating; eassumption.
Qed.

Lemma engineered_frame_rates_a_session_once_witness :
  exists df' r0 r1 r2,
    feature_engineering iso_parse three_feedback_rows = Ok df'
    /\ rows df' = [r0; r1] ++ r2 :: []
    /\ cell r0 "session_id" = cell r2 "session_id"
    /\ cell r0 "rating" = VInt 5
    /\ cell r2 "rating" = VNull.
Proof.
  eexists. eexists. eexists. eexists.
  split; [ reflexivity | ].
  match goal with
  | |- rows ?d = [?a; ?b] ++ ?c :: [] /\ _ =>
      pose proof (proj2 (@engineered_frame_rates_a_session_once iso_parse
                           three_feedback_rows d eq_refl)) as H
  end.
  cbn [rows] in H.
  split; [ reflexivity | ].
  split; [ reflexivity | ].
  split; [ reflexivity | ].
  eapply (H [_; _] _ []); [ reflexivity | ].
  eexists. split; [ left; reflexivity | reflexivity ].
Defined.

Lemma wrap64_range z : (- 2 ^ 63 <= wrap64 z < 2 ^ 63)%Z.
Proof.
  unfold wrap64.
  pose proof (Z.mod_pos_bound (z + 2 ^ 63) (2 ^ 64) ltac:(lia)). lia.
Qed.

(** X18.  [month_diff_period] is a 64-bit integer on every row of the
    engineered frame, never a null: it is the wrapped difference of the
    two month ordinals of the row's own timestamps, a missing timestamp
    counting as the smallest 64-bit integer.  When both timestamps are
    missing it is 0. *)
Theorem month_diff_period_is_always_an_integer
  (parse : value -> option Timestamp) (df df' : DataFrame) (r : Row) :
  feature_engineering parse df = Ok df' -> In r (rows df') ->
  exists z,
    cell r "month_diff_period" = VInt z
    /\ (- 2 ^ 63 <= z < 2 ^ 63)%Z
    /\ z = wrap64 (period_M_ordinal (as_ts (cell r "session_start_time"))
                   - period_M_ordinal (as_ts (cell r "au_start_date")))
    /\ (cell r "session_start_time" = VNull -> cell r "au_start_date" = VNull ->
        z = 0%Z).
Proof.
  intros F I.
  destruct (feature_engineering_rows _ _ F _ I) as (r0 & v & _ & ->).
  unfold key_row, month_diff_row. cell_simpl.
  eexists. split; [ reflexivity | ].
  split; [ apply wrap64_range | ].
  split; [ reflexivity | ].
  intros -> ->. reflexivity.
Qed.

Lemma month_diff_period_is_always_an_integer_witness :
  exists df' r z,
    feature_engineering iso_parse session_without_start_time = Ok df'
    /\ In r (rows df')
    /\ cell r "month_diff_period" = VInt z
    /\ (- 2 ^ 63 <= z < 2 ^ 63)%Z.
Proof.
  eexists. eexists.
  match goal with
  | |- exists z, ?f = Ok ?d /\ In ?r _ /\ _ =>
      assert (F : f = Ok d) by reflexivity;
      assert (I : In r (rows d)) by (left; reflexivity);
      destruct (@month_diff_period_is_always_an_integer iso_parse
                  session_without_start_time d r F I) as (z & C & B & _)
  end.
  exists z. split; [ exact F | ]. split; [ exact I | ]. split; [ exact C | exact B ].
Defined.

(* ================================================================== *)
(** * The join key [year_month_date_hour] (lines 150 and 156) *)

Lemma digit_inj a b : digit a = digit b -> a mod 10 = b mod 10.
Proof.
  unfold digit. intros E. apply (f_equal nat_of_ascii) in E.
  pose proof (Nat.mod_upper_bound a 10 ltac:(lia)).
  pose proof (Nat.mod_upper_bound b 10 ltac:(lia)).
  rewrite !nat_ascii_embedding in E by lia. lia.
Qed.

Lemma div10_inj n m : n / 10 = m / 10 -> n mod 10 = m mod 10 -> n = m.
Proof.
  intros Q R. rewrite (Nat.div_mod_eq n 10), (Nat.div_mod_eq m 10), Q, R.
  reflexivity.
Qed.

Lemma two_digits_inj x y :
  (0 <= x < 100)%Z -> (0 <= y < 100)%Z -> two_digits x = two_digits y -> x = y.
Proof.
  intros Hx Hy. unfold two_digits. intros E. injection E as E1 E0.
  apply digit_inj in E1, E0.
  assert (Bx : Z.to_nat x < 100) by lia. assert (By : Z.to_nat y < 100) by lia.
  assert (Qx : Z.to_nat x / 10 < 10) by (apply Nat.Div0.div_lt_upper_bound; lia).
  assert (Qy : Z.to_nat y / 10 < 10) by (apply Nat.Div0.div_lt_upper_bound; lia).
  rewrite !Nat.mod_small in E1 by assumption.
  apply Z2Nat.inj; [ lia | lia | ]. apply div10_inj; assumption.
Qed.

Lemma four_digits_inj x y :
  (0 <= x < 10000)%Z -> (0 <= y < 10000)%Z ->
  four_digits x = four_digits y -> x = y.
Proof.
  intros Hx Hy. unfold four_digits. intros E. injection E as E3 E2 E1 E0.
  apply digit_inj in E3, E2, E1, E0.
  assert (Bx : Z.to_nat x < 1000 * 10) by lia.
  assert (By : Z.to_nat y < 1000 * 10) by lia.
  set (n := Z.to_nat x) in *. set (m := Z.to_nat y) in *.
  assert (Qx : n / 1000 < 10) by (apply Nat.Div0.div_lt_upper_bound; exact Bx).
  assert (Qy : m / 1000 < 10) by (apply Nat.Div0.div_lt_upper_bound; exact By).
  rewrite !Nat.mod_small in E3 by assumption.
  assert (D2 : n / 100 = m / 100).
  { apply div10_inj; [ | assumption ].
    rewrite !Nat.Div0.div_div. exact E3. }
  assert (D1 : n / 10 = m / 10).
  { apply div10_inj; [ | assumption ].
    rewrite !Nat.Div0.div_div. exact D2. }
  apply Z2Nat.inj; [ lia | lia | ]. apply div10_inj; assumption.
Qed.

(** X19.  The key [strftime('%Y-%m-%d-%H')] builds is thirteen characters
    long and tells hours apart: two timestamps get the same key exactly
    when they have the same year, month, day and hour, whatever their
    minutes and seconds. *)
Theorem strftime_key_identifies_the_hour (t1 t2 : Timestamp) :
  fields_ok t1 -> fields_ok t2 ->
  String.length (strftime_key t1) = 13
  /\ (strftime_key t1 = strftime_key t2 <-> hour_bucket t1 = hour_bucket t2).
Proof.
  intros (Y1 & M1 & D1 & H1) (Y2 & M2 & D2 & H2).
  split; [ reflexivity | ].
  unfold hour_bucket, strftime_key. split.
  - unfold four_digits at 1 2. unfold two_digits at 1 2 3 4 5 6.
    cbn [String.append]. intros E.
    injection E as y3 y2 y1 y0 m1 m0 d1 d0 h1 h0.
    assert (Ey : year t1 = year t2).
    { apply four_digits_inj; [ lia | lia | ]. unfold four_digits. cbv zeta.
      repeat (apply f_equal2; [ assumption | ]). reflexivity. }
    assert (Em : month t1 = month t2).
    { apply two_digits_inj; [ lia | lia | ]. unfold two_digits. cbv zeta.
      repeat (apply f_equal2; [ assumption | ]). reflexivity. }
    assert (Ed : day t1 = day t2).
    { apply two_digits_inj; [ lia | lia | ]. unfold two_digits. cbv zeta.
      repeat (apply f_equal2; [ assumption | ]). reflexivity. }
    assert (Eh : hour t1 = hour t2).
    { apply two_digits_inj; [ lia | lia | ]. unfold two_digits. cbv zeta.
      repeat (apply f_equal2; [ assumption | ]). reflexivity. }
    congruence.
  - intros [= -> -> -> ->]. reflexivity.
Qed.

Lemma strftime_key_identifies_the_hour_witness :
  strftime_key (mkTs 2024 7 9 14 32 10) = strftime_key (mkTs 2024 7 9 14 0 0)
  /\ strftime_key (mkTs 2024 7 9 14 32 10) <> strftime_key (mkTs 2024 7 9 15 32 10).
Proof.
  assert (F : forall mi s h, (0 <= h <= 23)%Z -> fields_ok (mkTs 2024 7 9 h mi s)).
  { intros mi s h. unfold fields_ok. cbn. lia. }
  destruct (@strftime_key_identifies_the_hour
              (mkTs 2024 7 9 14 32 10) (mkTs 2024 7 9 14 0 0)
              (F 32 10 14 ltac:(lia)) (F 0 0 14 ltac:(lia)))%Z as [_ A].
  destruct (@strftime_key_identifies_the_hour
              (mkTs 2024 7 9 14 32 10) (mkTs 2024 7 9 15 32 10)
              (F 32 10 14 ltac:(lia)) (F 32 10 15 ltac:(lia)))%Z as [_ B].
  split; [ apply A; reflexivity | ].
  intros E. apply B in E. discriminate E.
Defined.

(* ================================================================== *)
(** * What the two merges need and return (lines 134 and 160) *)









(** X22.  When the two tables are built and line 134 merges them, the
    merged frame has a [session_start_time_x] and a [session_start_time_y]
    column and no [session_start_time]; the two merge keys are columns of
    it under their own names. *)
Theorem line_134_renames_both_start_times
  (sessions batch : list Row) (df1 df2 df : DataFrame) :
  build_df1 sessions = Ok df1 -> build_df2 batch = Ok df2 ->
  merge_df1_df2 df1 df2 = Ok df ->
  In "session_start_time_x" (columns df)
  /\ In "session_start_time_y" (columns df)
  /\ ~ In "session_start_time" (columns df)
  /\ In "session_id" (columns df) /\ In "Batch" (columns df).
Proof.
  intros B1 B2 M.
  pose proof (build_df1_columns _ B1) as C1.
  pose proof (build_df2_columns _ B2) as C2.
  destruct (merge_Ok _ _ _ _ M) as (C & _ & _).
  assert (S1 : In "session_start_time" (columns df1)) by (rewrite C1; cbn; tauto).
  assert (S2 : In "session_start_time" (columns df2)) by (apply C2; cbn; tauto).
  split; [ | split; [ | split; [ | split ] ] ].
  - rewrite C. apply in_app_iff. left. apply in_map_iff.
    exists "session_start_time". split; [ | exact S1 ].
    unfold llabel. apply mem_true in S2. rewrite S2. reflexivity.
  - rewrite C. apply in_app_iff. right. apply in_map_iff.
    exists "session_start_time". split.
    + unfold rlabel. apply mem_true in S1. rewrite S1. reflexivity.
    + apply filter_In. split; [ exact S2 | reflexivity ].
  - eapply merged_frame_has_no_session_start_time; eassumption.
  - rewrite C, C1. apply in_app_iff. left. cbn. tauto.
  - rewrite C, C1. apply in_app_iff. left. cbn. tauto.
Qed.

Lemma line_134_renames_both_start_times_witness :
  exists df,
    merge_df1_df2
      (rename [("lu_batch_name", "Batch"); ("module_name", "Module")]
         (mkDF df1_columns
               (map (project df1_columns) (rows (DataFrame_of_records one_session)))))
      (df2_of [ Sample.batch_row 1 "B1" ]) = Ok df
    /\ In "session_start_time_x" (columns df)
    /\ In "session_start_time_y" (columns df).
Proof.
  eexists.
  match goal with
  | |- ?m = Ok ?d /\ _ =>
      destruct (@line_134_renames_both_start_times
                  one_session [ Sample.batch_row 1 "B1" ] _ _ d
                  eq_refl eq_refl eq_refl) as (X & Y & _)
  end.
  split; [ reflexivity | ]. split; [ exact X | exact Y ].
Defined.

(* ================================================================== *)
(** * A batch dataset with both [batch] and [Batch] *)

Lemma count_occ_map_two (f : string -> string) l a b y :
  In a l -> In b l -> a <> b -> f a = y -> f b = y ->
  2 <= count_occ string_dec (map f l) y.
Proof.
  intros Ia Ib ne Fa Fb. apply in_split in Ia. destruct Ia as (l1 & l2 & ->).
  rewrite map_app, count_occ_app. cbn [map].
  rewrite count_occ_cons_eq by exact Fa.
  apply in_app_or in Ib. destruct Ib as [Ib | [E | Ib]]; [ | congruence | ].
  - assert (count_occ string_dec (map f l1) y > 0)
      by (apply count_occ_In; rewrite <- Fb; apply in_map; exact Ib).
    lia.
  - assert (count_occ string_dec (map f l2) y > 0)
      by (apply count_occ_In; rewrite <- Fb; apply in_map; exact Ib).
    lia.
Qed.

Lemma count_occ_map_once (f : string -> string) l y y0 :
  NoDup l -> (forall x, In x l -> f x = y -> x = y0) ->
  count_occ string_dec (map f l) y <= 1.
Proof.
  intros N. induction N as [ | x l Nx N IH ]; intros H; cbn [map]; [ simpl; lia | ].
  destruct (string_dec (f x) y) as [E | ne].
  - rewrite count_occ_cons_eq by exact E.
    assert (Z0 : count_occ string_dec (map f l) y = 0).
    { apply count_occ_not_In. intros I. apply in_map_iff in I.
      destruct I as (x' & E' & I').
      assert (x' = y0) by (apply H; [ right; exact I' | exact E' ]).
      assert (x = y0) by (apply H; [ left; reflexivity | exact E ]).
      apply Nx. congruence. }
    lia.
  - rewrite count_occ_cons_neq by exact ne.
    apply IH. intros x' I'. apply H. right. exact I'.
Qed.

(** X23.  A batch dataset that carries both a [batch] and a [Batch]
    label passes the validation of lines 128-131, since the renamed table
    then has two [Batch] columns; the merge of line 134 refuses it with
    the [ValueError] of a label that is not unique, and the pipeline ends
    there. *)
Theorem batch_label_twice_stops_the_merge
  (parse : value -> option Timestamp) (sessions batch slots : list Row)
  (df1 : DataFrame) :
  build_df1 sessions = Ok df1 ->
  build_df2 batch = Ok (df2_of batch) ->
  carried batch "batch" -> carried batch "Batch" ->
  merge_df1_df2 df1 (df2_of batch)
  = Raise (ValueError "The column label is not unique" ["Batch"])
  /\ join_pipeline parse sessions batch slots
     = Raise (ValueError "The column label is not unique" ["Batch"]).
Proof.
  intros B1 B2 Cb CB.
  pose proof (build_df1_columns _ B1) as C1.
  pose proof (build_df2_columns _ B2) as C2.
  assert (N : NoDup (columns (DataFrame_of_records batch)))
    by apply well_formed_of_records.
  assert (M : merge_df1_df2 df1 (df2_of batch)
              = Raise (ValueError "The column label is not unique" ["Batch"])).
  { unfold merge_df1_df2, merge. cbn [filter].
    assert (M1 : mem "session_id" (columns df1) = true) by (rewrite C1; reflexivity).
    assert (M2 : mem "Batch" (columns df1) = true) by (rewrite C1; reflexivity).
    assert (M3 : mem "session_id" (columns (df2_of batch)) = true)
      by (apply mem_true, C2; cbn; tauto).
    assert (M4 : mem "Batch" (columns (df2_of batch)) = true)
      by (apply mem_true, C2; cbn; tauto).
    rewrite M1, M2, M3, M4. cbn [andb negb].
    assert (R1 : repeated "session_id" (columns df1) = false)
      by (rewrite C1; reflexivity).
    assert (R2 : repeated "Batch" (columns df1) = false)
      by (rewrite C1; reflexivity).
    assert (R3 : repeated "session_id" (columns (df2_of batch)) = false).
    { unfold repeated. apply Nat.ltb_ge. unfold df2_of, rename. cbn [columns].
      apply (@count_occ_map_once _ _ _ "session_id" N).
      intros x _. cbn. destruct (string_dec x "batch"); [ discriminate | auto ]. }
    assert (R4 : repeated "Batch" (columns (df2_of batch)) = true).
    { unfold repeated. apply Nat.ltb_lt. unfold df2_of, rename. cbn [columns].
      apply (@count_occ_map_two _ _ "batch" "Batch");
        [ apply carried_columns; exact Cb | apply carried_columns; exact CB
        | discriminate | reflexivity | reflexivity ]. }
    rewrite R1, R2, R3, R4. reflexivity. }
  split; [ exact M | ].
  unfold join_pipeline. rewrite B1, B2. cbn [rbind]. rewrite M. reflexivity.
Qed.

Lemma batch_label_twice_stops_the_merge_witness :
  join_pipeline iso_parse one_session
    [ Sample.batch_row 1 "B1";
      ("Batch", VStr "B1") :: Sample.batch_row_without_mentor 2 "B2" ] []
  = Raise (ValueError "The column label is not unique" ["Batch"]).
Proof.
  refine (proj2 (@batch_label_twice_stops_the_merge iso_parse one_session
                   [ Sample.batch_row 1 "B1";
                     ("Batch", VStr "B1") :: Sample.batch_row_without_mentor 2 "B2" ]
                   [] _ eq_refl eq_refl _ _)).
  - exists (Sample.batch_row 1 "B1"). split; [ left; reflexivity | ].
    cbn. tauto.
  - eexists. split; [ right; left; reflexivity | ]. cbn. tauto.
Defined.

(* ================================================================== *)
(** * The slot table (lines 154-157) and its keys *)




(* ================================================================== *)
(** * The run as a whole *)

(** X25.  No run gets as far as the spreadsheet.  Whatever the
    environment, the network and the three datasets, the script ends with
    an exception after events that are the login, query posts and the
    pauses between them only: the spreadsheet is never opened, no
    worksheet is cleared or written. *)
Theorem no_run_opens_the_spreadsheet
  (parse : value -> option Timestamp) (w : World) (env : Env) :
  (exists e, snd (main parse w env) = Raise e)
  /\ exit_status (main parse w env) = 1
  /\ forall ev, In ev (fst (main parse w env)) ->
       is_login ev = true \/ is_post ev = true \/ ev = EvSleep 15.
Proof.
  assert (R : exists e, snd (main parse w env) = Raise e).
  { rewrite main_unfold.
    destruct (startup w env) as [t0 [tok | e0]]; [ | eexists; reflexivity ].
    destruct (fetch_all w env) as [t1 [[[s b] sl] | e1]]; [ | eexists; reflexivity ].
    destruct (join_pipeline_never_returns parse
                (match json s with Ok x => x | Raise _ => [] end)
                (match json b with Ok x => x | Raise _ => [] end)
                (match json sl with Ok x => x | Raise _ => [] end)) as [e E].
    destruct (json s) as [ s0 | ]; [ | eexists; reflexivity ].
    destruct (json b) as [ b0 | ]; [ | eexists; reflexivity ].
    destruct (json sl) as [ sl0 | ]; [ | eexists; reflexivity ].
    cbn [rbind]. rewrite E. eexists. reflexivity. }
  split; [ exact R | ].
  split; [ destruct R as [e E]; unfold exit_status; rewrite E; reflexivity | ].
  assert (S0 : forall ev, In ev (fst (startup w env)) -> is_login ev = true).
  { destruct (startup_cases w env) as [[E _] | (base & _ & _ & _ & _ & _ & E & _)];
      rewrite E; [ intros ev [] | intros ev [<- | []]; reflexivity ]. }
  assert (S1 : forall ev, In ev (fst (fetch_all w env)) ->
                          is_post ev = true \/ ev = EvSleep 15).
  { intros ev. unfold fetch_all.
    pose proof (@fetch_attempts_events w (TA_SESSIONS_QUERY env) 5 15 (seq 1 5) ev) as E1.
    pose proof (@fetch_attempts_events w (TA_BATCH_QUERY env) 5 15 (seq 1 5) ev) as E2.
    pose proof (@fetch_attempts_events w (TA_SLOTS_QUERY env) 5 15 (seq 1 5) ev) as E3.
    fold (fetch_with_retry w (TA_SESSIONS_QUERY env) 5 15) in E1.
    fold (fetch_with_retry w (TA_BATCH_QUERY env) 5 15) in E2.
    fold (fetch_with_retry w (TA_SLOTS_QUERY env) 5 15) in E3.
    destruct (fetch_with_retry w (TA_SESSIONS_QUERY env) 5 15) as [t1 r1].
    destruct (fetch_with_retry w (TA_BATCH_QUERY env) 5 15) as [t2 r2].
    destruct (fetch_with_retry w (TA_SLOTS_QUERY env) 5 15) as [t3 r3].
    cbn [fst] in *. rewrite !in_app_iff.
    intros [I | [I | I]];
      [ apply E1 in I | apply E2 in I | apply E3 in I ];
      (destruct I as [(a & -> & _) | ->]; [ left; reflexivity | right; reflexivity ]). }
  intros ev I.
  destruct (main_trace parse w env) as [E | [_ E]]; rewrite E in I.
  - left. apply S0. exact I.
  - apply in_app_or in I. destruct I as [I | I]; [ left; apply S0; exact I | ].
    right. apply S1. exact I.
Qed.

(** X8.  The start-up checks run in the order of the script and before
    any request.  An unset [METABASE_URL] ends the run at line 21 with an
    [AttributeError], also when the secrets are missing; otherwise an
    unset or empty [ASHRITHA_SECRET_KEY] or [SERVICE_ACCOUNT_JSON] ends it
    with the first [ValueError], and after them an unset or empty
    [TA_SHEET_ACCESS_KEY] with the second; with the four values given, a
    failure of the Google authorisation ends it before the login. *)
Theorem startup_checks_in_order
  (parse : value -> option Timestamp) (w : World) (env : Env) :
  (METABASE_URL env = None ->
     main parse w env
     = ([], Raise (AttributeError "'NoneType' object has no attribute 'rstrip'")))
  /\ (METABASE_URL env <> None ->
      truthy (ASHRITHA_SECRET_KEY env) = false
      \/ truthy (SERVICE_ACCOUNT_JSON env) = false ->
      main parse w env
      = ([], Raise (ValueError
                      "Missing environment variables. Check GitHub secrets." [])))
  /\ (METABASE_URL env <> None ->
      truthy (ASHRITHA_SECRET_KEY env) = true ->
      truthy (SERVICE_ACCOUNT_JSON env) = true ->
      truthy (TA_SHEET_ACCESS_KEY env) = false ->
      main parse w env
      = ([], Raise (ValueError
                      "TA_SHEET_ACCESS_KEY is not set. Check GitHub secrets." [])))
  /\ (forall e,
        METABASE_URL env <> None ->
        truthy (ASHRITHA_SECRET_KEY env) = true ->
        truthy (SERVICE_ACCOUNT_JSON env) = true ->
        truthy (TA_SHEET_ACCESS_KEY env) = true ->
        google_auth w (or_empty (SERVICE_ACCOUNT_JSON env)) = Raise e ->
        main parse w env = ([], Raise e)).
Proof.
  rewrite main_unfold. unfold startup.
  destruct (METABASE_URL env) as [ base | ].
  - split; [ discriminate | ].
    split; [ intros _ [-> | ->]; [ reflexivity | ] | ].
    { rewrite orb_true_r. reflexivity. }
    split; [ intros _ -> -> ->; reflexivity | ].
    intros e _ -> -> -> G. cbn [negb orb]. unfold mbind, lift, emit.
    rewrite G. reflexivity.
  - split; [ reflexivity | ].
    split; [ intros N; contradiction N; reflexivity | ].
    split; [ intros N; contradiction N; reflexivity | ].
    intros e N; contradiction N; reflexivity.
Qed.

Lemma startup_checks_in_order_witness :
  main iso_parse (Sample.world [] [] []) env_with_empty_payload
  = ([], Raise (ValueError
                  "Missing environment variables. Check GitHub secrets." [])).
Proof.
  apply (proj1 (proj2 (startup_checks_in_order iso_parse (Sample.world [] [] [])
                         env_with_empty_payload))).
  - discriminate.
  - right. reflexivity.
Defined.
